(** * nao-ai chat front end: a shallow embedding of [frontend/script.js]

    The script is a browser client: a global [CONFIG] and [STATE] object,
    the page's DOM, [localStorage] and a handful of event handlers, some of
    them [async].  The embedding keeps that shape:

    - JavaScript strings are [string]s (one character per code unit, Latin-1
      range); the text functions work on [list ascii];
    - [localStorage] is a [gmap string string];
    - [CONFIG], [STATE] and the parts of the page the handlers touch are the
      fields of one record, [World], passed from handler to handler;
    - an [async] handler is split at its [await]: a synchronous prefix that
      issues the request, and a continuation that receives the outcome of
      the request as an argument;
    - what leaves the program (toasts, requests, downloads, speech) is
      appended to logs that are part of the world;
    - the clock, the locale formatters and [Math.random] are inputs. *)

From Stdlib Require Import Ascii.
From stdpp Require Import base list strings gmap pretty.

Local Open Scope char_scope.
Local Open Scope stdpp_scope.

(** ** Characters and text *)

Abbreviation chars := (list ascii).

Definition lit (s : string) : chars := String.list_ascii_of_string s.
Definition text (l : chars) : string := String.string_of_list_ascii l.

Definition dquote : ascii := ascii_of_nat 34.
Definition newline : ascii := ascii_of_nat 10.
Definition nbsp : ascii := ascii_of_nat 160.
Definition nl : string := String newline EmptyString.

Definition in_range (lo hi : nat) (c : ascii) : bool :=
  (lo <=? nat_of_ascii c)%nat && (nat_of_ascii c <=? hi)%nat.

Definition is_digit (c : ascii) : bool := in_range 48 57 c.

(** [\w] of a regular expression without the unicode flag. *)
Definition is_word (c : ascii) : bool :=
  in_range 48 57 c || in_range 65 90 c || in_range 97 122 c || Ascii.eqb c "_".

(** White space and line terminators as [String.prototype.trim] and
    [parseFloat] see them, within the Latin-1 range. *)
Definition is_space (c : ascii) : bool :=
  in_range 9 13 c || Ascii.eqb c " " || Ascii.eqb c nbsp.

Fixpoint span (p : ascii -> bool) (s : chars) : chars * chars :=
  match s with
  | [] => ([], [])
  | c :: r => if p c then let '(a, b) := span p r in (c :: a, b) else ([], s)
  end.

Fixpoint drop_while (p : ascii -> bool) (s : chars) : chars :=
  match s with
  | [] => []
  | c :: r => if p c then drop_while p r else s
  end.

Definition trim (s : chars) : chars :=
  rev (drop_while is_space (rev (drop_while is_space s))).

Fixpoint strip_prefix (p s : chars) : option chars :=
  match p, s with
  | [], _ => Some s
  | a :: p', b :: s' => if Ascii.eqb a b then strip_prefix p' s' else None
  | _ :: _, [] => None
  end.

(** ** Message formatting ([escapeHtml], [formatMessageContent]) *)

Module Format.

(** [escapeHtml] writes the text into a detached [div] through [textContent]
    and reads [innerHTML] back: the serialisation of a text node, which
    replaces exactly these four characters. *)
Definition escape_char (c : ascii) : chars :=
  if Ascii.eqb c "&" then lit "&amp;"
  else if Ascii.eqb c "<" then lit "&lt;"
  else if Ascii.eqb c ">" then lit "&gt;"
  else if Ascii.eqb c nbsp then lit "&nbsp;"
  else [c].

Definition escapeHtml (s : chars) : chars := concat (map escape_char s).

(** [String.prototype.replace] with a global regular expression: scan from
    the left; where the expression matches, emit the replacement and go on
    behind the match, otherwise copy one character.  A [matcher] is the
    regular expression seen from one position: the length of its match at
    the head of the input and the text that replaces it.  None of the
    expressions below matches the empty string. *)
Definition matcher := chars -> option (nat * chars).

Fixpoint replace_go (m : matcher) (skip : nat) (s : chars) : chars :=
  match s with
  | [] => []
  | c :: rest =>
    match skip with
    | S k => replace_go m k rest
    | O =>
      match m s with
      | Some (len, rep) => rep ++ replace_go m (pred len) rest
      | None => c :: replace_go m 0 rest
      end
    end
  end.

Definition replace_all (m : matcher) (s : chars) : chars := replace_go m 0 s.

(** The lazy [[\s\S]*?] followed by three backticks: everything up to the
    first fence, and what follows the fence. *)
Fixpoint find_fence (s : chars) : option (chars * chars) :=
  match strip_prefix (lit "```") s with
  | Some after => Some ([], after)
  | None =>
    match s with
    | [] => None
    | c :: r =>
      match find_fence r with
      | Some (code, after) => Some (c :: code, after)
      | None => None
      end
    end
  end.

Definition pre_open (lang : chars) : chars :=
  lit "<pre>" ++ lit "<code class=" ++ [dquote] ++ lit "language-" ++ lang
    ++ [dquote] ++ lit ">".
Definition pre_close : chars := lit "</code>" ++ lit "</pre>".

(** [/```(\w+)?\n([\s\S]*?)```/]: the greedy optional [\w+] takes the whole
    run of word characters (a shorter run is never followed by a newline),
    the group is undefined when the run is empty, and the body is lazy. *)
Definition match_code_block : matcher := fun s =>
  match strip_prefix (lit "```") s with
  | None => None
  | Some r0 =>
    let '(lang, r1) := span is_word r0 in
    match r1 with
    | c :: r2 =>
      if Ascii.eqb c newline then
        match find_fence r2 with
        | Some (code, _) =>
          Some (3 + length lang + 1 + length code + 3,
                pre_open (match lang with [] => lit "text" | _ => lang end)
                  ++ trim code ++ pre_close)
        | None => None
        end
      else None
    | [] => None
    end
  end.

(** A delimiter [d], a non-empty greedy run of characters other than [stop],
    and the delimiter again: the shape of the inline-code, bold and italic
    expressions. *)
Definition match_delimited (d : chars) (stop : ascii) (open close : chars)
  : matcher := fun s =>
  match strip_prefix d s with
  | None => None
  | Some r0 =>
    let '(run, r1) := span (fun c => negb (Ascii.eqb c stop)) r0 in
    match run, strip_prefix d r1 with
    | _ :: _, Some _ =>
      Some (length d + length run + length d, open ++ run ++ close)
    | _, _ => None
    end
  end.

(** [/`([^`]+)`/g] with ['<code>$1</code>']. *)
Definition match_inline_code : matcher :=
  match_delimited (lit "`") "`" (lit "<code>") (lit "</code>").
(** [/\*\*([^*]+)\*\*/g] with ['<strong>$1</strong>']. *)
Definition match_bold : matcher :=
  match_delimited (lit "**") "*" (lit "<strong>") (lit "</strong>").
(** [/\*([^*]+)\*/g] with ['<em>$1</em>']. *)
Definition match_italic : matcher :=
  match_delimited (lit "*") "*" (lit "<em>") (lit "</em>").
(** [/\n/g] with ['<br>']. *)
Definition match_newline : matcher := fun s =>
  match s with
  | c :: _ => if Ascii.eqb c newline then Some (1, lit "<br>") else None
  | [] => None
  end.

Definition format_chars (content : chars) : chars :=
  let formatted := escapeHtml content in
  let formatted := replace_all match_code_block formatted in
  let formatted := replace_all match_inline_code formatted in
  let formatted := replace_all match_bold formatted in
  let formatted := replace_all match_italic formatted in
  let formatted := replace_all match_newline formatted in
  formatted.

Definition formatMessageContent (content : string) : string :=
  text (format_chars (lit content)).

End Format.

(** ** Settings ([CONFIG] and its initialiser) *)

Module Settings.

(** A JavaScript number as far as the script needs it: not-a-number, an
    infinity, or the decimal [(-1)^neg * mant * 10^exp10] that a numeric
    literal denotes.  Of the rounding to a double only the two ends of the
    range are modelled ([to_double] below), since they decide whether the
    number is an infinity or a zero; the rounding of the digits is not. *)
Inductive jsnum :=
  | NaN
  | Infinity (neg : bool)
  | Dec (neg : bool) (mant : N) (exp10 : Z).

(** Truthiness of a number: [NaN], [0] and [-0] are falsy. *)
Definition num_truthy (x : jsnum) : bool :=
  match x with
  | NaN => false
  | Infinity _ => true
  | Dec _ m _ => negb (m =? 0)%N
  end.

Definition digit_val (c : ascii) : N := N.of_nat (nat_of_ascii c - 48).

Definition digits_val (ds : chars) : N :=
  fold_left (fun acc c => acc * 10 + digit_val c)%N ds 0%N.

Definition parse_sign (s : chars) : bool * chars :=
  match s with
  | c :: r =>
    if Ascii.eqb c "-" then (true, r)
    else if Ascii.eqb c "+" then (false, r)
    else (false, s)
  | [] => (false, [])
  end.

Definition parse_exponent (s : chars) : Z :=
  match s with
  | c :: r =>
    if Ascii.eqb c "e" || Ascii.eqb c "E" then
      let '(neg, r') := parse_sign r in
      let '(ds, _) := span is_digit r' in
      match ds with
      | [] => 0%Z
      | _ => if neg then (- Z.of_N (digits_val ds))%Z else Z.of_N (digits_val ds)
      end
    else 0%Z
  | [] => 0%Z
  end.

(** The value of a decimal literal as a double, at the ends of the range.
    The largest double is [2^1024 - 2^971]: a literal of magnitude
    [2^1024 - 2^970] or more (half a step beyond it, the tie going to the
    even neighbour) is an infinity.  The smallest double above zero is
    [2^-1074]: a literal of magnitude [2^-1075] or less is a zero, with its
    sign. *)
Definition to_double (neg : bool) (mant : N) (exp10 : Z) : jsnum :=
  let m := Z.of_N mant in
  if (m =? 0)%Z then Dec neg mant exp10
  else if (0 <=? exp10)%Z then
    if (2 ^ 1024 - 2 ^ 970 <=? m * 10 ^ exp10)%Z then Infinity neg
    else Dec neg mant exp10
  else if ((2 ^ 1024 - 2 ^ 970) * 10 ^ (- exp10) <=? m)%Z then Infinity neg
  else if (m * 2 ^ 1075 <=? 10 ^ (- exp10))%Z then Dec neg 0 0
  else Dec neg mant exp10.

(** [parseFloat]: leading white space is skipped and the longest prefix that
    is a decimal literal is read; [NaN] when there is none. *)
Definition parseFloat_chars (s : chars) : jsnum :=
  let s := drop_while is_space s in
  let '(neg, s) := parse_sign s in
  match strip_prefix (lit "Infinity") s with
  | Some _ => Infinity neg
  | None =>
    let '(ip, r1) := span is_digit s in
    let '(fp, r2) :=
      match r1 with
      | c :: r => if Ascii.eqb c "." then span is_digit r else ([], r1)
      | [] => ([], [])
      end in
    match ip ++ fp with
    | [] => NaN
    | ds =>
      to_double neg (digits_val ds) (parse_exponent r2 - Z.of_nat (length fp))
    end
  end.

Definition parseFloat (s : string) : jsnum := parseFloat_chars (lit s).

(** [localStorage.getItem(key)] is [null] or a string; [parseFloat(null)]
    parses the text [null]. *)
Definition parseFloat_item (v : option string) : jsnum :=
  parseFloat (default "null" v).

(** [v || d] for a value that is [null] or a string. *)
Definition str_or (v : option string) (d : string) : string :=
  match v with
  | Some s => if String.eqb s "" then d else s
  | None => d
  end.

(** [x || d] for numbers. *)
Definition num_or (x d : jsnum) : jsnum := if num_truthy x then x else d.

Record Config := {
  apiEndpoint : string;
  model : string;
  temperature : jsnum;
  voiceOutput : bool;
  theme : string
}.

Definition default_apiEndpoint : string := "http://localhost:8000".
Definition default_model : string := "deepseek/deepseek-chat".
Definition default_temperature : jsnum := Dec false 7 (-1).
Definition default_theme : string := "dark".

Definition getItem (ls : gmap string string) (key : string) : option string :=
  ls !! key.
Definition setItem (key value : string) (ls : gmap string string)
  : gmap string string := <[key := value]> ls.

(** The object literal bound to [CONFIG] when the script loads. *)
Definition loadConfig (ls : gmap string string) : Config :=
  {| apiEndpoint := str_or (getItem ls "apiEndpoint") default_apiEndpoint;
     model := str_or (getItem ls "model") default_model;
     temperature := num_or (parseFloat_item (getItem ls "temperature"))
                      default_temperature;
     voiceOutput :=
       match getItem ls "voiceOutput" with
       | Some s => String.eqb s "true"
       | None => false
       end;
     theme := str_or (getItem ls "theme") default_theme |}.

Definition with_apiEndpoint (v : string) (c : Config) : Config :=
  {| apiEndpoint := v; model := model c; temperature := temperature c;
     voiceOutput := voiceOutput c; theme := theme c |}.

(** The migration that follows the initialiser: the old hosted endpoint is
    rewritten, in [CONFIG] and in storage. *)
Definition migrate (cl : Config * gmap string string)
  : Config * gmap string string :=
  let '(c, ls) := cl in
  if String.eqb (apiEndpoint c) "https://nao-ai.onrender.com/"
  then (with_apiEndpoint default_apiEndpoint c,
        setItem "apiEndpoint" default_apiEndpoint ls)
  else (c, ls).

End Settings.

(** ** The host environment

    Formatting that the script leaves to the browser: the [Intl] time
    format of [formatTime], [Date.prototype.toLocaleString],
    [Number.prototype.toLocaleString], and the conversion of a number to a
    string that [localStorage.setItem] applies.  Dates are milliseconds
    since the epoch. *)
Class Host := {
  formatTime : Z -> string;
  dateToLocaleString : Z -> string;
  numberToLocaleString : nat -> string;
  numberToString : Settings.jsnum -> string
}.

(** ** The chat client: [STATE], the page, and the handlers *)

Module Chat.
Import Settings.

Record Reasoning := { short : string; full : string }.

Record Message := {
  role : string;
  content : string;
  reasoning : option Reasoning;
  imageUrl : option string;
  timestamp : Z
}.

(** [STATE] (the recorder fields play no part here). *)
Record State := {
  sessionId : string;
  currentImage : option string;
  imageType : option string;
  isProcessing : bool;
  messages : list Message
}.

(** A rendered message: what [createMessageElement] puts into the [div]. *)
Record MessageElement := {
  el_role : string;
  el_image : option string;
  el_bubble : string;
  el_reasoning : option string;
  el_fullReasoning : option string;
  el_time : string
}.

(** The children of [#messagesContainer]. *)
Inductive Node :=
  | WelcomeNode
  | TypingNode
  | MessageNode (e : MessageElement).

Record HistoryItem := {
  item_sessionId : string;
  item_text : string;
  item_count : nat;
  item_active : bool
}.

(** The parts of the page the handlers read and write.  The elements of the
    [elements] table belong to the page and are present; the two statistics
    elements are looked up on each use and may be missing ([None]).  Scroll
    positions, focus, the height of the text area and the value of the file
    input are left out. *)
Record Page := {
  container : list Node;
  welcomeDisplay : string;
  inputValue : string;
  sendDisabled : bool;
  previewDisplay : string;
  previewSrc : string;
  chatHistory : list HistoryItem;
  sessionMsgCount : option string;
  totalTokens : option string
}.

Record Toast := { toast_message : string; toast_type : string }.

Inductive Request :=
  | PostChat (url message session_id model : string) (temperature : jsnum)
      (image_data image_type : option string)
  | GetSessions (url : string)
  | GetSession (url : string).

Record Download := { filename : string; mime : string; body : string }.

(** What the handlers send out, oldest first. *)
Record Effects := {
  toasts : list Toast;
  requests : list Request;
  spoken : list string;
  downloads : list Download
}.

Record World := {
  CONFIG : Config;
  STATE : State;
  localStorage : gmap string string;
  page : Page;
  effects : Effects
}.

(** *** Field updates *)

Definition set_sessionId (v : string) (s : State) : State :=
  {| sessionId := v; currentImage := currentImage s; imageType := imageType s;
     isProcessing := isProcessing s; messages := messages s |}.
Definition set_image (img ty : option string) (s : State) : State :=
  {| sessionId := sessionId s; currentImage := img; imageType := ty;
     isProcessing := isProcessing s; messages := messages s |}.
Definition set_isProcessing (v : bool) (s : State) : State :=
  {| sessionId := sessionId s; currentImage := currentImage s;
     imageType := imageType s; isProcessing := v; messages := messages s |}.
Definition set_messages (v : list Message) (s : State) : State :=
  {| sessionId := sessionId s; currentImage := currentImage s;
     imageType := imageType s; isProcessing := isProcessing s; messages := v |}.

Definition set_container (v : list Node) (p : Page) : Page :=
  {| container := v; welcomeDisplay := welcomeDisplay p;
     inputValue := inputValue p; sendDisabled := sendDisabled p;
     previewDisplay := previewDisplay p; previewSrc := previewSrc p;
     chatHistory := chatHistory p; sessionMsgCount := sessionMsgCount p;
     totalTokens := totalTokens p |}.
Definition set_welcomeDisplay (v : string) (p : Page) : Page :=
  {| container := container p; welcomeDisplay := v;
     inputValue := inputValue p; sendDisabled := sendDisabled p;
     previewDisplay := previewDisplay p; previewSrc := previewSrc p;
     chatHistory := chatHistory p; sessionMsgCount := sessionMsgCount p;
     totalTokens := totalTokens p |}.
Definition set_inputValue (v : string) (p : Page) : Page :=
  {| container := container p; welcomeDisplay := welcomeDisplay p;
     inputValue := v; sendDisabled := sendDisabled p;
     previewDisplay := previewDisplay p; previewSrc := previewSrc p;
     chatHistory := chatHistory p; sessionMsgCount := sessionMsgCount p;
     totalTokens := totalTokens p |}.
Definition set_sendDisabled (v : bool) (p : Page) : Page :=
  {| container := container p; welcomeDisplay := welcomeDisplay p;
     inputValue := inputValue p; sendDisabled := v;
     previewDisplay := previewDisplay p; previewSrc := previewSrc p;
     chatHistory := chatHistory p; sessionMsgCount := sessionMsgCount p;
     totalTokens := totalTokens p |}.
Definition set_preview (display src : string) (p : Page) : Page :=
  {| container := container p; welcomeDisplay := welcomeDisplay p;
     inputValue := inputValue p; sendDisabled := sendDisabled p;
     previewDisplay := display; previewSrc := src;
     chatHistory := chatHistory p; sessionMsgCount := sessionMsgCount p;
     totalTokens := totalTokens p |}.
Definition set_chatHistory (v : list HistoryItem) (p : Page) : Page :=
  {| container := container p; welcomeDisplay := welcomeDisplay p;
     inputValue := inputValue p; sendDisabled := sendDisabled p;
     previewDisplay := previewDisplay p; previewSrc := previewSrc p;
     chatHistory := v; sessionMsgCount := sessionMsgCount p;
     totalTokens := totalTokens p |}.
Definition set_stats (count tokens : option string) (p : Page) : Page :=
  {| container := container p; welcomeDisplay := welcomeDisplay p;
     inputValue := inputValue p; sendDisabled := sendDisabled p;
     previewDisplay := previewDisplay p; previewSrc := previewSrc p;
     chatHistory := chatHistory p; sessionMsgCount := count;
     totalTokens := tokens |}.

Definition add_toast (t : Toast) (e : Effects) : Effects :=
  {| toasts := toasts e ++ [t]; requests := requests e; spoken := spoken e;
     downloads := downloads e |}.
Definition add_request (r : Request) (e : Effects) : Effects :=
  {| toasts := toasts e; requests := requests e ++ [r]; spoken := spoken e;
     downloads := downloads e |}.
Definition add_spoken (s : string) (e : Effects) : Effects :=
  {| toasts := toasts e; requests := requests e; spoken := spoken e ++ [s];
     downloads := downloads e |}.
Definition add_download (d : Download) (e : Effects) : Effects :=
  {| toasts := toasts e; requests := requests e; spoken := spoken e;
     downloads := downloads e ++ [d] |}.

Definition upd_STATE (f : State -> State) (w : World) : World :=
  {| CONFIG := CONFIG w; STATE := f (STATE w); localStorage := localStorage w;
     page := page w; effects := effects w |}.
Definition upd_page (f : Page -> Page) (w : World) : World :=
  {| CONFIG := CONFIG w; STATE := STATE w; localStorage := localStorage w;
     page := f (page w); effects := effects w |}.
Definition upd_effects (f : Effects -> Effects) (w : World) : World :=
  {| CONFIG := CONFIG w; STATE := STATE w; localStorage := localStorage w;
     page := page w; effects := f (effects w) |}.
Definition upd_localStorage (f : gmap string string -> gmap string string)
    (w : World) : World :=
  {| CONFIG := CONFIG w; STATE := STATE w; localStorage := f (localStorage w);
     page := page w; effects := effects w |}.

(** *** Utilities *)

(** [Math.random().toString(36)] is the input [rnd]. *)
Definition generateSessionId (rnd : string) : string :=
  "session_" +:+ String.substring 2 (15 - 2) rnd.

Definition escapeHtml (s : string) : string :=
  text (Format.escapeHtml (lit s)).

Definition showToast (message type : string) (w : World) : World :=
  upd_effects (add_toast {| toast_message := message; toast_type := type |}) w.

(** Truthiness of a value that is [null] or a string. *)
Definition truthy (v : option string) : bool :=
  match v with
  | Some s => negb (String.eqb s "")
  | None => false
  end.

(** *** Message handling *)

Definition createMessageElement `{Host} (role content : string)
    (reasoning : option Reasoning) (imageUrl : option string) (now : Z)
  : MessageElement :=
  let bot := String.eqb role "bot" in
  {| el_role := role;
     el_image := if truthy imageUrl then imageUrl else None;
     el_bubble := Format.formatMessageContent content;
     el_reasoning :=
       match reasoning with
       | Some r => if bot then Some (escapeHtml (short r)) else None
       | None => None
       end;
     el_fullReasoning :=
       match reasoning with
       | Some r => if bot then Some (full r) else None
       | None => None
       end;
     el_time := formatTime now |}.

(** [speakText], in a browser that has speech synthesis. *)
Definition speakText (s : string) (w : World) : World :=
  upd_effects (add_spoken s) w.

(** The function declared as [addMessage]; [now] is the clock reading. *)
Definition originalAddMessage `{Host} (role content : string)
    (reasoning : option Reasoning) (imageUrl : option string) (now : Z)
    (w : World) : World :=
  let w := upd_page (set_welcomeDisplay "none") w in
  let messageElement := createMessageElement role content reasoning imageUrl now in
  let w := upd_page (set_container
                       (container (page w) ++ [MessageNode messageElement])) w in
  let w := upd_STATE (set_messages
                        (messages (STATE w) ++
                           [{| role := role; content := content;
                               reasoning := reasoning; imageUrl := imageUrl;
                               timestamp := now |}])) w in
  if String.eqb role "bot" && voiceOutput (CONFIG w)
  then speakText content w
  else w.

Definition estimateTokens (s : string) : nat := (String.length s + 3) / 4.

Definition updateSessionStats `{Host} (w : World) : World :=
  let count :=
    match sessionMsgCount (page w) with
    | Some _ => Some (pretty (length (messages (STATE w))) +:+ " messages")
    | None => None
    end in
  let total :=
    match totalTokens (page w) with
    | Some _ =>
      let tokens :=
        fold_left (fun tokens msg => tokens + estimateTokens (content msg))
                  (messages (STATE w)) 0 in
      Some (numberToLocaleString tokens)
    | None => None
    end in
  upd_page (set_stats count total) w.

(** [addMessage] after the reassignment at the end of the script; every
    call site reads the binding when it runs, and the script has run to its
    end before the first handler does. *)
Definition addMessage `{Host} (role content : string)
    (reasoning : option Reasoning) (imageUrl : option string) (now : Z)
    (w : World) : World :=
  updateSessionStats (originalAddMessage role content reasoning imageUrl now w).

Definition showTypingIndicator (w : World) : World :=
  upd_page (set_container (container (page w) ++ [TypingNode])) w.

(** [getElementById] finds the first element with the id. *)
Fixpoint remove_typing (l : list Node) : list Node :=
  match l with
  | [] => []
  | TypingNode :: r => r
  | n :: r => n :: remove_typing r
  end.

Definition removeTypingIndicator (w : World) : World :=
  upd_page (set_container (remove_typing (container (page w)))) w.

Definition clearImagePreview (w : World) : World :=
  upd_page (set_preview "none" "") (upd_STATE (set_image None None) w).

(** *** API communication *)

(** The body of a response as [response.json()] delivers it: a rejection
    with the parser's message, or the decoded object.  (A body that decodes
    to [null] makes the first property read throw; it counts as
    [Unparseable], with that error's message.) *)
Inductive Body (A : Type) :=
  | Unparseable (msg : string)
  | Parsed (a : A).
Arguments Unparseable {A} msg.
Arguments Parsed {A} a.

(** What settles a [fetch]: a rejection (its error message), or a response
    with its [ok] flag and its body. *)
Inductive Outcome (A : Type) :=
  | Rejected (msg : string)
  | Response (ok : bool) (b : Body A).
Arguments Rejected {A} msg.
Arguments Response {A} ok b.

(** The fields [sendMessage] reads from the body of [POST /chat]. *)
Record ChatJson := {
  detail : option string;
  final_answer : string;
  short_reasoning : string;
  full_reasoning : string;
  session_id : option string
}.

(** The synchronous part of [sendMessage], up to the [await fetch]. *)
Definition sendMessage `{Host} (message : string)
    (imageData imageType : option string) (now : Z) (w : World) : World :=
  if isProcessing (STATE w) then w
  else
    let w := upd_STATE (set_isProcessing true) w in
    let w := upd_page (set_sendDisabled true) w in
    let imageUrl :=
      if truthy imageData
      then Some ("data:" +:+ default "null" imageType +:+ ";base64,"
                   +:+ default "" imageData)
      else None in
    let w := addMessage "user" message None imageUrl now w in
    let w := upd_page (set_inputValue "") w in
    let w := clearImagePreview w in
    let w := showTypingIndicator w in
    upd_effects
      (add_request
         (PostChat (apiEndpoint (CONFIG w) +:+ "/chat") message
            (sessionId (STATE w)) (model (CONFIG w)) (temperature (CONFIG w))
            imageData imageType)) w.

(** The click handler of the send button. *)
Definition sendBtn_click `{Host} (now : Z) (w : World) : World :=
  let message := text (trim (lit (inputValue (page w)))) in
  if negb (String.eqb message "") || truthy (currentImage (STATE w))
  then sendMessage
         (if String.eqb message "" then "What is in this image?" else message)
         (currentImage (STATE w)) (imageType (STATE w)) now w
  else w.

(** How the [try] block ends: with the message of the error that reaches
    the [catch] clause (a rejected [fetch], a body that is not JSON, or a
    response that is not [ok], whose [detail] or a fixed text becomes the
    message), or with the decoded answer. *)
Definition chat_result (o : Outcome ChatJson) : string + ChatJson :=
  match o with
  | Rejected msg => inl msg
  | Response false (Unparseable msg) => inl msg
  | Response false (Parsed e) =>
    inl (if truthy (detail e) then default "" (detail e)
         else "Failed to get response")
  | Response true (Unparseable msg) => inl msg
  | Response true (Parsed data) => inr data
  end.

Definition loadChatHistory (w : World) : World :=
  upd_effects
    (add_request (GetSessions (apiEndpoint (CONFIG w) +:+ "/sessions?limit=20")))
    w.

Definition setItem (key value : string) (w : World) : World :=
  upd_localStorage (Settings.setItem key value) w.

(** The rest of [sendMessage], run when the request settles. *)
Definition sendMessage_settle `{Host} (o : Outcome ChatJson) (now : Z)
    (w : World) : World :=
  let w :=
    match chat_result o with
    | inr data =>
      let w := removeTypingIndicator w in
      let w := addMessage "bot" (final_answer data)
                 (Some {| short := short_reasoning data;
                          full := full_reasoning data |}) None now w in
      let w :=
        if truthy (session_id data)
        then let w := upd_STATE (set_sessionId (default "" (session_id data))) w in
             setItem "sessionId" (sessionId (STATE w)) w
        else w in
      loadChatHistory w
    | inl message =>
      let w := removeTypingIndicator w in
      let w := addMessage "bot"
                 ("Sorry, I encountered an error: " +:+ message
                    +:+ ". Please check if the backend server is running.")
                 None None now w in
      showToast message "error" w
    end in
  (* finally *)
  let w := upd_STATE (set_isProcessing false) w in
  upd_page (set_sendDisabled false) w.

(** *** Image upload *)

Record File := { file_type : string; file_size : N }.

Definition validTypes : list string :=
  ["image/jpeg"; "image/png"; "image/gif"; "image/webp"].

Definition includes (l : list string) (s : string) : bool :=
  existsb (String.eqb s) l.

(** [handleImageUpload]: the second component is the file handed to
    [reader.readAsDataURL], if any. *)
Definition handleImageUpload (file : option File) (w : World)
  : World * option File :=
  match file with
  | None => (w, None)
  | Some f =>
    if negb (includes validTypes (file_type f)) then
      (showToast "Please upload a valid image (JPEG, PNG, GIF, WebP)" "error" w,
       None)
    else if (10 * 1024 * 1024 <? file_size f)%N then
      (showToast "Image too large. Maximum size is 10MB" "error" w, None)
    else (w, Some f)
  end.

Fixpoint split_on (sep : ascii) (s : chars) : list chars :=
  match s with
  | [] => [[]]
  | c :: r =>
    if Ascii.eqb c sep then [] :: split_on sep r
    else
      match split_on sep r with
      | p :: ps => (c :: p) :: ps
      | [] => [[c]]
      end
  end.

(** [reader.onload], with the data URL the reader produced. *)
Definition reader_onload (f : File) (result : string) (w : World) : World :=
  let base64 := text <$> (split_on "," (lit result) !! 1) in
  let w := upd_STATE (set_image base64 (Some (file_type f))) w in
  upd_page (set_preview "block" result) w.

(** *** Chat export *)

Fixpoint repeat_string (s : string) (n : nat) : string :=
  match n with
  | O => ""
  | S k => s +:+ repeat_string s k
  end.

Definition exportChat_content `{Host} (now : Z) (msgs : list Message) : string :=
  let out := "Nao AI - Chat Export" +:+ nl in
  let out := out +:+ "Generated: " +:+ dateToLocaleString now +:+ nl in
  let out := out +:+ repeat_string "=" 50 +:+ nl +:+ nl in
  fold_left
    (fun out msg =>
       let time := formatTime (timestamp msg) in
       let who := if String.eqb (role msg) "user" then "You" else "AI" in
       let out := out +:+ "[" +:+ time +:+ "] " +:+ who +:+ ":" +:+ nl
                    +:+ content msg +:+ nl in
       let out :=
         match reasoning msg with
         | Some r => out +:+ nl +:+ "Reasoning: " +:+ short r +:+ nl
         | None => out
         end in
       out +:+ nl +:+ repeat_string "-" 30 +:+ nl +:+ nl)
    msgs out.

Definition exportChat `{Host} (now : Z) (w : World) : World :=
  match messages (STATE w) with
  | [] => showToast "No messages to export" "error" w
  | msgs =>
    let w := upd_effects
               (add_download
                  {| filename := "chat-export-" +:+ pretty now +:+ ".txt";
                     mime := "text/plain";
                     body := exportChat_content now msgs |}) w in
    showToast "Chat exported successfully!" "success" w
  end.

(** The click handler of [#exportTxt]. *)
Definition exportTxt_click `{Host} (now : Z) (w : World) : World :=
  showToast "Exported as TXT!" "success" (exportChat now w).

Definition exportMd_content `{Host} (now : Z) (msgs : list Message) : string :=
  let out := "# AI Chatbot Export" +:+ nl +:+ nl +:+ "**Date:** "
               +:+ dateToLocaleString now +:+ nl +:+ nl +:+ "---" +:+ nl +:+ nl in
  fold_left
    (fun out msg =>
       let who := if String.eqb (role msg) "user" then "**You**" else "**AI**" in
       out +:+ who +:+ ":" +:+ nl +:+ nl +:+ content msg +:+ nl +:+ nl
         +:+ "---" +:+ nl +:+ nl)
    msgs out.

(** The click handler of [#exportMd]. *)
Definition exportMd_click `{Host} (now : Z) (w : World) : World :=
  let w := upd_effects
             (add_download
                {| filename := "chat-export-" +:+ pretty now +:+ ".md";
                   mime := "text/markdown";
                   body := exportMd_content now (messages (STATE w)) |}) w in
  showToast "Exported as Markdown!" "success" w.

(** *** Settings *)

(** The controls of the settings dialog as the user left them. *)
Record SettingsForm := {
  modelSelect : string;
  temperatureSlider : string;
  voiceOutputToggle : bool;
  apiEndpointInput : string
}.

Definition saveSettingsToStorage `{Host} (form : SettingsForm) (w : World)
  : World :=
  let cfg :=
    {| apiEndpoint := apiEndpointInput form;
       model := modelSelect form;
       temperature := parseFloat (temperatureSlider form);
       voiceOutput := voiceOutputToggle form;
       theme := theme (CONFIG w) |} in
  let w := {| CONFIG := cfg; STATE := STATE w; localStorage := localStorage w;
              page := page w; effects := effects w |} in
  let w := setItem "model" (model (CONFIG w)) w in
  let w := setItem "temperature" (numberToString (temperature (CONFIG w))) w in
  let w := setItem "voiceOutput"
             (if voiceOutput (CONFIG w) then "true" else "false") w in
  let w := setItem "apiEndpoint" (apiEndpoint (CONFIG w)) w in
  showToast "Settings saved!" "success" w.

(** *** New chat *)

Definition startNewChat (rnd : string) (w : World) : World :=
  let w := upd_STATE (set_sessionId (generateSessionId rnd)) w in
  let w := upd_STATE (set_messages []) w in
  let w := setItem "sessionId" (sessionId (STATE w)) w in
  let w := upd_page (set_container []) w in
  let w := upd_page (set_welcomeDisplay "flex") w in
  let w := upd_page (set_container (container (page w) ++ [WelcomeNode])) w in
  showToast "Started new chat" "success" w.

(** *** Session history *)

Record SessionInfo := {
  si_id : string;
  si_title : option string;
  si_message_count : option nat
}.

Record SessionsJson := { sessions : option (list SessionInfo) }.

Definition history_item (s : SessionInfo) : HistoryItem :=
  let title := Settings.str_or (si_title s) "New Chat" in
  {| item_sessionId := si_id s;
     item_text := escapeHtml (String.substring 0 30 title)
                    +:+ (if (30 <? String.length title)%nat then "..." else "");
     item_count := default 0%nat (si_message_count s);
     item_active := false |}.

(** [loadChatHistory] once its request settles; a failure is only logged to
    the console. *)
Definition loadChatHistory_settle (o : Outcome SessionsJson) (w : World)
  : World :=
  match o with
  | Response _ (Parsed data) =>
    match sessions data with
    | Some (s :: ss) =>
      upd_page (set_chatHistory (map history_item (s :: ss))) w
    | _ => w
    end
  | _ => w
  end.

(** A message of [GET /sessions/{id}]. *)
Record SessionMessage := {
  m_role : string;
  m_content : string;
  m_reasoning : option Reasoning
}.

Record SessionJson := { s_messages : option (list SessionMessage) }.

(** The synchronous part of [loadSession]: the request. *)
Definition loadSession (id : string) (w : World) : World :=
  upd_effects
    (add_request (GetSession (apiEndpoint (CONFIG w) +:+ "/sessions/" +:+ id)))
    w.

Definition toggle_active (id : string) (i : HistoryItem) : HistoryItem :=
  {| item_sessionId := item_sessionId i; item_text := item_text i;
     item_count := item_count i;
     item_active := String.eqb (item_sessionId i) id |}.

(** The rest of [loadSession].  The [ok] flag of the response is never
    read; an array, even an empty one, is truthy.  The loop over the
    messages runs within one reading of the clock, [now]. *)
Definition loadSession_settle `{Host} (id : string) (o : Outcome SessionJson)
    (now : Z) (w : World) : World :=
  match o with
  | Response _ (Parsed data) =>
    match s_messages data with
    | Some msgs =>
      let w := upd_STATE (set_sessionId id) w in
      let w := setItem "sessionId" id w in
      let w := upd_STATE (set_messages []) w in
      let w := upd_page (set_container []) w in
      let w := upd_page (set_welcomeDisplay "none") w in
      let w :=
        fold_left
          (fun w msg =>
             addMessage (m_role msg) (m_content msg) (m_reasoning msg) None now w)
          msgs w in
      let w := upd_page (set_chatHistory
                           (map (toggle_active id) (chatHistory (page w)))) w in
      showToast "Chat loaded!" "success" w
    | None => w
    end
  | _ => showToast "Error loading chat" "error" w
  end.

(** *** The script's top level *)

(** [STATE] as the script creates it, [rnd] being the random draw that is
    used when no identifier is stored. *)
Definition initState (ls : gmap string string) (rnd : string) : State :=
  {| sessionId := str_or (getItem ls "sessionId") (generateSessionId rnd);
     currentImage := None; imageType := None;
     isProcessing := false; messages := [] |}.

(** The world once the script has run to its end on the page [pg]: [CONFIG]
    read and migrated, [STATE] created, the identifier and the theme
    written back to storage, the statistics shown. *)
Definition init `{Host} (ls : gmap string string) (rnd : string) (pg : Page)
  : World :=
  let '(cfg, ls) := migrate (loadConfig ls, ls) in
  let st := initState ls rnd in
  let ls := Settings.setItem "sessionId" (sessionId st) ls in
  let ls := Settings.setItem "theme" (theme cfg) ls in
  updateSessionStats
    {| CONFIG := cfg; STATE := st; localStorage := ls; page := pg;
       effects := {| toasts := []; requests := []; spoken := [];
                     downloads := [] |} |}.

End Chat.

(** ** Backup restore (the [change] handler of [#restoreFile])

    The handler copies whatever the backup holds into [CONFIG], [STATE] and
    [localStorage] without looking at its type, so here these are seen as
    JavaScript values rather than as the typed records above. *)

Module Restore.
Import Settings.

(** A value as [JSON.parse] builds it; the fields of an object are its own
    properties in enumeration order, with distinct names. *)
#[local] Unset Elimination Schemes.
Inductive json :=
  | JNull
  | JBool (b : bool)
  | JNum (n : jsnum)
  | JStr (s : string)
  | JArr (items : list json)
  | JObj (fields : list (string * json)).
#[local] Set Elimination Schemes.

Fixpoint assoc (k : string) (fs : list (string * json)) : option json :=
  match fs with
  | [] => None
  | (k', v) :: r => if String.eqb k k' then Some v else assoc k r
  end.

(** [v.k] for [v] other than [null]: [None] is [undefined]. *)
Definition get (k : string) (v : json) : option json :=
  match v with
  | JObj fs => assoc k fs
  | _ => None
  end.

Definition truthy (v : option json) : bool :=
  match v with
  | None | Some JNull => false
  | Some (JBool b) => b
  | Some (JNum n) => num_truthy n
  | Some (JStr s) => negb (String.eqb s "")
  | Some (JArr _) | Some (JObj _) => true
  end.

(** The own enumerable properties, as [Object.assign] and [Object.entries]
    walk them. *)
Definition own_props (v : option json) : list (string * json) :=
  match v with
  | Some (JObj fs) => fs
  | Some (JArr l) => imap (fun i x => (pretty i, x)) l
  | Some (JStr s) =>
    imap (fun i c => (pretty i, JStr (String c EmptyString))) (lit s)
  | _ => []
  end.

Record Store := {
  rCONFIG : gmap string json;
  rSessionId : option json;
  rMessages : json;
  rLocalStorage : gmap string string;
  rToasts : list Chat.Toast;
  rReload : bool
}.

Definition toast (message type : string) (s : Store) : Store :=
  {| rCONFIG := rCONFIG s; rSessionId := rSessionId s;
     rMessages := rMessages s; rLocalStorage := rLocalStorage s;
     rToasts := rToasts s ++ [{| Chat.toast_message := message;
                                  Chat.toast_type := type |}];
     rReload := rReload s |}.

(** The text of the chosen file: [JSON.parse] throws, or delivers a value. *)
Inductive FileText :=
  | NotJson
  | Json (backup : json).

Section Handler.

(** [String(v)], the conversion [localStorage.setItem] applies to a value. *)
Variable toString : json -> string.

Definition apply_backup (backup : json) (s : Store) : Store :=
  let config :=
    fold_left (fun c kv => <[kv.1 := kv.2]> c)
              (own_props (get "config" backup)) (rCONFIG s) in
  let '(sid, msgs) :=
    if truthy (get "state" backup) then
      let state := default JNull (get "state" backup) in
      (get "sessionId" state,
       if truthy (get "messages" state)
       then default JNull (get "messages" state)
       else JArr [])
    else (rSessionId s, rMessages s) in
  let storage :=
    if truthy (get "localStorage" backup) then
      fold_left (fun ls kv => <[kv.1 := toString kv.2]> ls)
                (own_props (get "localStorage" backup)) (rLocalStorage s)
    else rLocalStorage s in
  {| rCONFIG := config; rSessionId := sid; rMessages := msgs;
     rLocalStorage := storage;
     rToasts := rToasts s ++
                  [{| Chat.toast_message := "Backup restored! Reloading...";
                      Chat.toast_type := "success" |}];
     rReload := true |}.

(** [reader.onload].  Reading a property of [null] throws, which the
    [catch] clause reports like a syntax error. *)
Definition restore (file : FileText) (s : Store) : Store :=
  match file with
  | NotJson => toast "Error reading backup file" "error" s
  | Json JNull => toast "Error reading backup file" "error" s
  | Json backup =>
    if truthy (get "version" backup) && truthy (get "config" backup)
    then apply_backup backup s
    else toast "Invalid backup file" "error" s
  end.

End Handler.

End Restore.

(** ** Specification vocabulary *)

Module FormatSpec.
Import Format.

(** The tags [formatMessageContent] writes. *)
Inductive formatter_tag : chars -> Prop :=
  | tag_pre : formatter_tag (lit "<pre>")
  | tag_code_lang lang :
      Forall (fun c => is_word c = true) lang ->
      formatter_tag (lit "<code class=" ++ [dquote] ++ lit "language-" ++ lang
                       ++ [dquote] ++ lit ">")
  | tag_code_end : formatter_tag (lit "</code>")
  | tag_pre_end : formatter_tag (lit "</pre>")
  | tag_code : formatter_tag (lit "<code>")
  | tag_strong : formatter_tag (lit "<strong>")
  | tag_strong_end : formatter_tag (lit "</strong>")
  | tag_em : formatter_tag (lit "<em>")
  | tag_em_end : formatter_tag (lit "</em>")
  | tag_br : formatter_tag (lit "<br>").

(** A text all of whose angle brackets belong to such tags: it reads, from
    left to right, as characters other than angle brackets and whole tags. *)
Inductive only_formatter_tags : chars -> Prop :=
  | oft_nil : only_formatter_tags []
  | oft_char c s :
      c <> "<"%char -> c <> ">"%char ->
      only_formatter_tags s -> only_formatter_tags (c :: s)
  | oft_tag t s :
      formatter_tag t ->
      only_formatter_tags s -> only_formatter_tags (t ++ s).

Definition no_angle (s : chars) : Prop :=
  Forall (fun c => c <> "<"%char /\ c <> ">"%char) s.

(** The characters the markdown expressions consume. *)
Definition is_delim (c : ascii) : Prop :=
  c = "`"%char \/ c = "*"%char \/ c = newline.

(** [rewrites s out]: [out] is [s] with some of its delimiter characters
    replaced by texts that hold only formatter tags, and all its other
    characters kept. *)
Inductive rewrites : chars -> chars -> Prop :=
  | rw_nil : rewrites [] []
  | rw_keep c s out : rewrites s out -> rewrites (c :: s) (c :: out)
  | rw_subst c t s out :
      is_delim c -> only_formatter_tags t ->
      rewrites s out -> rewrites (c :: s) (t ++ out).

Definition matcher_rewrites (m : matcher) : Prop :=
  forall s len rep,
    m s = Some (len, rep) -> 1 <= len /\ rewrites (take len s) rep.

End FormatSpec.

Module ChatSpec.
Import Settings Chat.

(** A decimal in positional notation, as JavaScript prints numbers of
    moderate size: no sign for zero, no trailing zeros after the point. *)
Fixpoint strip_zeros (fuel : nat) (m : N) (e : Z) : N * Z :=
  match fuel with
  | O => (m, e)
  | S k =>
    if ((e <? 0)%Z && (m mod 10 =? 0)%N && negb (m =? 0)%N)
    then strip_zeros k (m / 10)%N (e + 1)%Z
    else (m, e)
  end.

Definition decimal_text (x : jsnum) : string :=
  match x with
  | NaN => "NaN"
  | Infinity neg => if neg then "-Infinity" else "Infinity"
  | Dec neg m e =>
    if (m =? 0)%N then "0"
    else
      let '(m, e) := strip_zeros (Z.to_nat (- e)) m e in
      let ds := pretty m in
      let body :=
        if (0 <=? e)%Z then ds +:+ repeat_string "0" (Z.to_nat e)
        else
          let k := Z.to_nat (- e) in
          let n := String.length ds in
          if (k <? n)%nat
          then String.substring 0 (n - k) ds +:+ "." +:+ String.substring (n - k) k ds
          else "0." +:+ repeat_string "0" (k - n) +:+ ds in
      (if neg then "-" else "") +:+ body
  end.

(** A host that prints every time as noon and numbers in plain decimal. *)
Definition plain_host : Host :=
  {| formatTime := fun _ => "12:00 PM";
     dateToLocaleString := fun t => pretty t;
     numberToLocaleString := fun n => pretty n;
     numberToString := decimal_text |}.

(** A first visit: empty storage, the welcome page, a random draw. *)
Definition fresh : World :=
  init (H := plain_host) ∅ "0.4fzyo82mvyr"
    {| container := [WelcomeNode]; welcomeDisplay := "flex"; inputValue := "";
       sendDisabled := false; previewDisplay := "none"; previewSrc := "";
       chatHistory := []; sessionMsgCount := Some ""; totalTokens := Some "" |}.

(** *** Runs of the send protocol

    The page sends whenever the user asks; the network settles a request
    only while one is outstanding. *)
Inductive Event :=
  | Send (message : string) (imageData imageType : option string) (now : Z)
  | Settle (o : Outcome ChatJson) (now : Z).

Definition is_post (r : Request) : nat :=
  match r with
  | PostChat _ _ _ _ _ _ _ => 1
  | _ => 0
  end.

(** The chat requests issued so far. *)
Definition posts (w : World) : nat :=
  sum_list_with is_post (requests (effects w)).

Record Run := { world : World; settled : nat }.

Definition step `{Host} (r : Run) (e : Event) : Run :=
  match e with
  | Send message imageData imageType now =>
    {| world := sendMessage message imageData imageType now (world r);
       settled := settled r |}
  | Settle o now =>
    if (settled r <? posts (world r))%nat
    then {| world := sendMessage_settle o now (world r);
            settled := S (settled r) |}
    else r
  end.

(** At most one chat request is outstanding, and exactly when the
    processing flag is set. *)
Definition single_flight (r : Run) : Prop :=
  posts (world r)
  = settled r + (if isProcessing (STATE (world r)) then 1 else 0).

(** The message [addMessage] stores. *)
Definition stored (role content : string) (reasoning : option Reasoning)
    (imageUrl : option string) (now : Z) : Message :=
  {| role := role; content := content; reasoning := reasoning;
     imageUrl := imageUrl; timestamp := now |}.

(** A message of a fetched session as [loadSession] stores and renders
    it. *)
Definition loaded (now : Z) (m : SessionMessage) : Message :=
  stored (m_role m) (m_content m) (m_reasoning m) None now.

Definition loaded_node `{Host} (now : Z) (m : SessionMessage) : Node :=
  MessageNode
    (createMessageElement (m_role m) (m_content m) (m_reasoning m) None now).

(** The image URL [sendMessage] builds for the user's message. *)
Definition image_url (imageData imageType : option string) : option string :=
  if truthy imageData
  then Some ("data:" +:+ default "null" imageType +:+ ";base64,"
               +:+ default "" imageData)
  else None.

(** [part] occurs in [s]. *)
Definition mentions (s part : string) : Prop :=
  exists pre post, s = pre +:+ part +:+ post.

(** The request failed: the [fetch] was rejected or the response is not
    [ok]. *)
Definition send_failed (o : Outcome ChatJson) : bool :=
  match o with
  | Rejected _ => true
  | Response ok _ => negb ok
  end.

Definition error_text (reason : string) : string :=
  "Sorry, I encountered an error: " +:+ reason
    +:+ ". Please check if the backend server is running.".

Definition error_toast (message : string) : Toast :=
  {| toast_message := message; toast_type := "error" |}.

(** [loadSession] failed as the user sees it: no response, a response that
    is not [ok], a body that is not JSON, or a body without messages. *)
Definition load_failed (o : Outcome SessionJson) : bool :=
  match o with
  | Rejected _ => true
  | Response _ (Unparseable _) => true
  | Response ok (Parsed data) =>
    negb ok || negb (bool_decide (is_Some (s_messages data)))
  end.

(** The failures that reach the [catch] clause of [loadSession]. *)
Definition load_throws (o : Outcome SessionJson) : bool :=
  match o with
  | Rejected _ => true
  | Response _ (Unparseable _) => true
  | Response _ (Parsed _) => false
  end.

(** The body was decoded and has no [messages]. *)
Definition load_without_messages (o : Outcome SessionJson) : bool :=
  match o with
  | Response _ (Parsed data) => negb (bool_decide (is_Some (s_messages data)))
  | _ => false
  end.

Definition same_session (w w' : World) : Prop :=
  sessionId (STATE w') = sessionId (STATE w) /\
  messages (STATE w') = messages (STATE w) /\
  container (page w') = container (page w).

Definition error_notice_raised (w w' : World) : Prop :=
  exists message,
    toasts (effects w') = toasts (effects w) ++ [error_toast message].

(** A file is acceptable to [handleImageUpload]. *)
Definition acceptable (f : File) : Prop :=
  file_type f ∈ validTypes /\ (file_size f <= 10 * 1024 * 1024)%N.

(** The transcript the specification asks of an export: a header, then one
    entry per message, in the order of the log. *)
Definition transcript (header : string) (entry : Message -> string)
    (msgs : list Message) : string :=
  header +:+ foldr (fun m rest => entry m +:+ rest) "" msgs.

Definition role_label (m : Message) : string :=
  if String.eqb (role m) "user" then "You" else "AI".

Definition reasoning_note (m : Message) : string :=
  match reasoning m with
  | Some r => nl +:+ "Reasoning: " +:+ short r +:+ nl
  | None => ""
  end.

Definition txt_header `{Host} (now : Z) : string :=
  "Nao AI - Chat Export" +:+ nl +:+ "Generated: " +:+ dateToLocaleString now
    +:+ nl +:+ repeat_string "=" 50 +:+ nl +:+ nl.

Definition txt_entry `{Host} (m : Message) : string :=
  ("[" +:+ formatTime (timestamp m) +:+ "] ") +:+ role_label m +:+ (":" +:+ nl)
    +:+ content m +:+ nl +:+ reasoning_note m
    +:+ nl +:+ repeat_string "-" 30 +:+ nl +:+ nl.

Definition md_header `{Host} (now : Z) : string :=
  "# AI Chatbot Export" +:+ nl +:+ nl +:+ "**Date:** " +:+ dateToLocaleString now
    +:+ nl +:+ nl +:+ "---" +:+ nl +:+ nl.

Definition md_entry (m : Message) : string :=
  ("**" +:+ role_label m +:+ "**") +:+ (":" +:+ nl +:+ nl) +:+ content m
    +:+ nl +:+ nl +:+ "---" +:+ nl +:+ nl.

End ChatSpec.

Module RestoreSpec.
Import Restore.

(** The backup lacks a field: reading it gives [undefined]. *)
Definition lacks (k : string) (backup : json) : Prop := get k backup = None.

(** A file the claim calls invalid. *)
Definition invalid (file : FileText) : Prop :=
  match file with
  | NotJson => True
  | Json backup => lacks "version" backup \/ lacks "config" backup
  end.

Definition plain_toString (v : json) : string :=
  match v with
  | JStr s => s
  | JNull => "null"
  | JBool true => "true"
  | JBool false => "false"
  | JNum _ => "0"
  | JArr _ => ""
  | JObj _ => "[object Object]"
  end.

Definition some_store : Store :=
  {| rCONFIG := {[ "model" := JStr "deepseek/deepseek-chat" ]};
     rSessionId := Some (JStr "session_abc");
     rMessages := JArr [];
     rLocalStorage := {[ "sessionId" := "session_abc" ]};
     rToasts := [];
     rReload := false |}.

End RestoreSpec.

(** ** Further handlers: the current session, deletion, theme, reset *)

Module Shell.
Import Settings Chat.

(** The synchronous part of [loadCurrentSession]: the request for the
    session that is current when it is called. *)
Definition loadCurrentSession (w : World) : World :=
  upd_effects
    (add_request
       (GetSession (apiEndpoint (CONFIG w) +:+ "/sessions/"
                      +:+ sessionId (STATE w)))) w.

(** The rest of [loadCurrentSession]: the body is read only from a response
    that is [ok], the messages are added to what the log already holds, and
    every failure ends in the empty [catch] clause. *)
Definition loadCurrentSession_settle `{Host} (o : Outcome SessionJson)
    (now : Z) (w : World) : World :=
  match o with
  | Response true (Parsed data) =>
    match s_messages data with
    | Some (m :: ms) =>
      let w := upd_page (set_welcomeDisplay "none") w in
      fold_left
        (fun w msg =>
           addMessage (m_role msg) (m_content msg) (m_reasoning msg) None now w)
        (m :: ms) w
    | _ => w
    end
  | _ => w
  end.

(** The page around the chat: the theme attribute of the document, the icon
    of the theme button, the theme options of the settings dialog (theme and
    active mark), the admin dialog, the [DELETE] requests sent and whether a
    reload of the page is scheduled. *)
Record Shell := {
  inner : World;
  dataTheme : string;
  themeIcon : string;
  themeOptions : list (string * bool);
  adminModalActive : bool;
  deletes : list string;
  reloadScheduled : bool
}.

Definition upd_inner (f : World -> World) (sh : Shell) : Shell :=
  {| inner := f (inner sh); dataTheme := dataTheme sh;
     themeIcon := themeIcon sh; themeOptions := themeOptions sh;
     adminModalActive := adminModalActive sh; deletes := deletes sh;
     reloadScheduled := reloadScheduled sh |}.

Definition with_theme (v : string) (c : Config) : Config :=
  {| apiEndpoint := apiEndpoint c; model := model c;
     temperature := temperature c; voiceOutput := voiceOutput c; theme := v |}.

Definition set_CONFIG (c : Config) (w : World) : World :=
  {| CONFIG := c; STATE := STATE w; localStorage := localStorage w;
     page := page w; effects := effects w |}.

Definition setTheme (theme : string) (sh : Shell) : Shell :=
  let w := inner sh in
  let w := set_CONFIG (with_theme theme (CONFIG w)) w in
  let w := setItem "theme" theme w in
  {| inner := w;
     dataTheme := theme;
     themeIcon := if String.eqb theme "dark" then "fas fa-moon" else "fas fa-sun";
     themeOptions :=
       map (fun o => (o.1, String.eqb o.1 theme)) (themeOptions sh);
     adminModalActive := adminModalActive sh; deletes := deletes sh;
     reloadScheduled := reloadScheduled sh |}.

(** The click handler of the theme button. *)
Definition themeToggle_click (sh : Shell) : Shell :=
  setTheme (if String.eqb (theme (CONFIG (inner sh))) "dark"
            then "light" else "dark") sh.

(** [deleteSession] up to its first [await]: nothing happens unless the
    user confirms. *)
Definition deleteSession (id : string) (confirmed : bool) (sh : Shell) : Shell :=
  if confirmed then
    {| inner := inner sh; dataTheme := dataTheme sh;
       themeIcon := themeIcon sh; themeOptions := themeOptions sh;
       adminModalActive := adminModalActive sh;
       deletes := deletes sh
                    ++ [apiEndpoint (CONFIG (inner sh)) +:+ "/sessions/" +:+ id];
       reloadScheduled := reloadScheduled sh |}
  else sh.

(** When the [DELETE] request settles: a rejection goes to the [catch]
    clause; any response, whatever its status, is followed by
    [loadChatHistory]. *)
Definition deleteSession_fetched (o : Outcome unit) (sh : Shell) : Shell :=
  match o with
  | Rejected _ => upd_inner (showToast "Error deleting chat" "error") sh
  | Response _ _ => upd_inner loadChatHistory sh
  end.

(** When the refreshed list has settled (its failures are caught inside
    [loadChatHistory]): the deleted session is compared with the one that
    is current now. *)
Definition deleteSession_listed (id : string) (o : Outcome SessionsJson)
    (rnd : string) (sh : Shell) : Shell :=
  upd_inner
    (fun w =>
       let w := loadChatHistory_settle o w in
       let w := if String.eqb id (sessionId (STATE w))
                then startNewChat rnd w else w in
       showToast "Chat deleted!" "success" w) sh.

(** The click handler of [#resetSystem]; [rnd1] and [rnd2] are the two
    random draws it makes. *)
Definition resetSystem_click (confirmed : bool) (rnd1 rnd2 : string)
    (sh : Shell) : Shell :=
  if confirmed then
    let sh := upd_inner (upd_localStorage (fun _ => ∅)) sh in
    let sh :=
      upd_inner
        (set_CONFIG
           {| apiEndpoint := "http://localhost:8000";
              model := "google/gemini-2.0-flash-exp:free";
              temperature := Dec false 7 (-1);
              voiceOutput := false;
              theme := "dark" |}) sh in
    let sh := upd_inner (startNewChat rnd1) sh in
    let sh := upd_inner (upd_STATE (set_sessionId (generateSessionId rnd2))) sh in
    let sh := upd_inner
                (fun w => setItem "sessionId" (sessionId (STATE w)) w) sh in
    let sh := setTheme "dark" sh in
    let sh := upd_inner (showToast "System reset complete!" "success") sh in
    {| inner := inner sh; dataTheme := dataTheme sh;
       themeIcon := themeIcon sh; themeOptions := themeOptions sh;
       adminModalActive := false; deletes := deletes sh;
       reloadScheduled := true |}
  else sh.

(** [updateUptime]: the text written into [#uptime], from the time the
    script started and the time now, both in milliseconds. *)
Definition uptime_text (sessionStartTime now : Z) : string :=
  let elapsed := ((now - sessionStartTime) / 1000)%Z in
  if (elapsed <? 60)%Z then pretty elapsed +:+ "s"
  else if (elapsed <? 3600)%Z then pretty (elapsed / 60)%Z +:+ "m"
  else pretty (elapsed / 3600)%Z +:+ "h".

End Shell.

Module ShellSpec.
Import Settings Chat ChatSpec Shell.

(** One complete exchange: a send and the settling of its request. *)
Record Exchange := {
  ex_message : string;
  ex_imageData : option string;
  ex_imageType : option string;
  ex_sent : Z;
  ex_outcome : Outcome ChatJson;
  ex_settled : Z
}.

Definition exchange `{Host} (w : World) (e : Exchange) : World :=
  sendMessage_settle (ex_outcome e) (ex_settled e)
    (sendMessage (ex_message e) (ex_imageData e) (ex_imageType e) (ex_sent e) w).

(** The bot message that answers a settled request: the answer with its
    reasoning, or the error text. *)
Definition reply (o : Outcome ChatJson) (now : Z) : Message :=
  match chat_result o with
  | inr data =>
    stored "bot" (final_answer data)
      (Some {| short := short_reasoning data; full := full_reasoning data |})
      None now
  | inl reason => stored "bot" (error_text reason) None None now
  end.

Definition exchange_log (e : Exchange) : list Message :=
  [stored "user" (ex_message e) None
     (image_url (ex_imageData e) (ex_imageType e)) (ex_sent e);
   reply (ex_outcome e) (ex_settled e)].

(** The messages [loadCurrentSession] adds for an outcome. *)
Definition current_messages (o : Outcome SessionJson) : list SessionMessage :=
  match o with
  | Response true (Parsed data) => default [] (s_messages data)
  | _ => []
  end.

(** The characters that [formatMessageContent] rewrites. *)
Definition is_special (c : ascii) : bool :=
  Ascii.eqb c "&" || Ascii.eqb c "<" || Ascii.eqb c ">" || Ascii.eqb c nbsp
  || Ascii.eqb c "`" || Ascii.eqb c "*" || Ascii.eqb c newline.

Definition plain (s : chars) : Prop := Forall (fun c => is_special c = false) s.

(** A text without the two characters that open markup. *)
Definition no_markup (s : chars) : Prop :=
  Forall (fun c => Ascii.eqb "`" c = false /\ Ascii.eqb "*" c = false) s.

(** What becomes of one character of a text without markup: a line feed is
    a [br] tag, every other character is escaped. *)
Definition break_char (c : ascii) : chars :=
  if Ascii.eqb c newline then lit "<br>" else Format.escape_char c.

(** The element [addMessage] renders for a message of the log. *)
Definition render `{Host} (m : Message) : MessageElement :=
  createMessageElement (role m) (content m) (reasoning m) (imageUrl m)
    (timestamp m).

(** The message elements of a transcript, in order. *)
Fixpoint rendered (l : list Node) : list MessageElement :=
  match l with
  | [] => []
  | MessageNode e :: r => e :: rendered r
  | _ :: r => rendered r
  end.

(** The transcript shows exactly the log. *)
Definition mirrors `{Host} (w : World) : Prop :=
  rendered (container (page w)) = map render (messages (STATE w)).

(** What can happen to the chat, one handler at a time. *)
Inductive Action :=
  | ASend (message : string) (imageData imageType : option string) (now : Z)
  | ASettle (o : Outcome ChatJson) (now : Z)
  | AClick (now : Z)
  | ALoaded (id : string) (o : Outcome SessionJson) (now : Z)
  | ACurrent (o : Outcome SessionJson) (now : Z)
  | AListed (o : Outcome SessionsJson)
  | ANewChat (rnd : string)
  | AUpload (file : option File)
  | ARead (f : File) (result : string)
  | AExportTxt (now : Z)
  | AExportMd (now : Z)
  | ASave (form : SettingsForm).

Definition act `{Host} (w : World) (a : Action) : World :=
  match a with
  | ASend message imageData imageType now =>
    sendMessage message imageData imageType now w
  | ASettle o now => sendMessage_settle o now w
  | AClick now => sendBtn_click now w
  | ALoaded id o now => loadSession_settle id o now w
  | ACurrent o now => loadCurrentSession_settle o now w
  | AListed o => loadChatHistory_settle o w
  | ANewChat rnd => startNewChat rnd w
  | AUpload file => (handleImageUpload file w).1
  | ARead f result => reader_onload f result w
  | AExportTxt now => exportTxt_click now w
  | AExportMd now => exportMd_click now w
  | ASave form => saveSettingsToStorage form w
  end.

(** A page shell in its first state, around the fresh world. *)
Definition fresh_shell : Shell :=
  {| inner := fresh; dataTheme := "dark"; themeIcon := "fas fa-moon";
     themeOptions := [("dark", true); ("light", false)];
     adminModalActive := false; deletes := []; reloadScheduled := false |}.

Definition default_config : Config :=
  {| apiEndpoint := default_apiEndpoint; model := default_model;
     temperature := default_temperature; voiceOutput := false;
     theme := default_theme |}.

End ShellSpec.

(** * Properties *)

(** ** The formatter *)
Module FormatFacts.
Import Format FormatSpec.

Lemma span_app p s a b : span p s = (a, b) -> s = a ++ b.
Proof.
  revert a b. induction s as [|c r IH]; intros a b; simpl.
  - intros [= <- <-]. reflexivity.
  - destruct (p c).
    + destruct (span p r) as [a' b'] eqn:E. intros [= <- <-].
      simpl. f_equal. apply IH. reflexivity.
    + intros [= <- <-]. reflexivity.
Qed.

Lemma span_Forall p s a b : span p s = (a, b) -> Forall (fun c => p c = true) a.
Proof.
  revert a b. induction s as [|c r IH]; intros a b; simpl.
  - intros [= <- <-]. constructor.
  - destruct (p c) eqn:Hc.
    + destruct (span p r) as [a' b'] eqn:E. intros [= <- <-].
      constructor; [exact Hc | eapply IH; reflexivity].
    + intros [= <- <-]. constructor.
Qed.

Lemma strip_prefix_app p s r : strip_prefix p s = Some r -> s = p ++ r.
Proof.
  revert s. induction p as [|a p IH]; intros [|b s]; simpl; try congruence.
  destruct (Ascii.eqb_spec a b) as [->|]; [|congruence].
  intros H. f_equal. apply IH, H.
Qed.

Lemma find_fence_app s code after :
  find_fence s = Some (code, after) -> s = code ++ lit "```" ++ after.
Proof.
  revert code. induction s as [|c r IH]; intros code.
  - simpl. congruence.
  - cbn [find_fence]. destruct (strip_prefix (lit "```") (c :: r)) eqn:E.
    + intros [= <- <-]. apply strip_prefix_app in E. exact E.
    + destruct (find_fence r) as [[code' after']|]; [|congruence].
      intros [= <- <-]. simpl. f_equal. apply IH. reflexivity.
Qed.

Lemma drop_while_Forall (P : ascii -> Prop) p s :
  Forall P s -> Forall P (drop_while p s).
Proof.
  induction 1 as [|c r Hc Hr IH]; simpl; [constructor|].
  destruct (p c); [exact IH | constructor; assumption].
Qed.

Lemma trim_Forall (P : ascii -> Prop) s : Forall P s -> Forall P (trim s).
Proof.
  intros H. unfold trim.
  apply Forall_rev, drop_while_Forall, Forall_rev, drop_while_Forall, H.
Qed.


(** *** Texts that hold only formatter tags *)

Lemma only_tags_app x y :
  only_formatter_tags x -> only_formatter_tags y -> only_formatter_tags (x ++ y).
Proof.
  induction 1 as [|c s Hlt Hgt Hs IH|t s Ht Hs IH]; intros Hy; simpl.
  - exact Hy.
  - apply oft_char; auto.
  - rewrite <- app_assoc. apply oft_tag; auto.
Qed.

Lemma only_tags_tag t : formatter_tag t -> only_formatter_tags t.
Proof.
  intros Ht. rewrite <- (app_nil_r t). apply oft_tag; [exact Ht | constructor].
Qed.

Lemma no_angle_only_tags s : no_angle s -> only_formatter_tags s.
Proof.
  induction 1 as [|c s [Hlt Hgt] Hs IH]; [constructor|].
  apply oft_char; assumption.
Qed.

Create HintDb fmt.
#[local] Hint Resolve only_tags_app only_tags_tag no_angle_only_tags : fmt.
#[local] Hint Constructors formatter_tag only_formatter_tags : fmt.

(** *** Escaping *)

Lemma escape_char_no_angle c : no_angle (escape_char c).
Proof.
  unfold escape_char, no_angle.
  destruct (Ascii.eqb_spec c "&"); [repeat constructor; discriminate|].
  destruct (Ascii.eqb_spec c "<"); [repeat constructor; discriminate|].
  destruct (Ascii.eqb_spec c ">"); [repeat constructor; discriminate|].
  destruct (Ascii.eqb_spec c nbsp); [repeat constructor; discriminate|].
  repeat constructor; assumption.
Qed.

Lemma escapeHtml_no_angle s : no_angle (escapeHtml s).
Proof.
  unfold escapeHtml, no_angle.
  induction s as [|c s IH]; simpl; [constructor|].
  apply Forall_app. split; [apply escape_char_no_angle | exact IH].
Qed.

(** *** The replacement engine on a text without angle brackets *)

Lemma replace_go_plain m :
  (forall s len rep,
     no_angle s -> m s = Some (len, rep) -> only_formatter_tags rep) ->
  forall s skip, no_angle s -> only_formatter_tags (replace_go m skip s).
Proof.
  intros Hm s. induction s as [|c r IH]; intros skip Hs; simpl.
  - constructor.
  - pose proof Hs as Hs'. apply Forall_cons in Hs' as [[Hlt Hgt] Hr].
    destruct skip as [|k]; [|apply IH, Hr].
    destruct (m (c :: r)) as [[len rep]|] eqn:E.
    + apply only_tags_app; [exact (Hm _ _ _ Hs E) | apply IH, Hr].
    + apply oft_char; auto.
Qed.

Lemma text_is_word : Forall (fun c => is_word c = true) (lit "text").
Proof. repeat constructor. Qed.

Lemma match_code_block_plain s len rep :
  no_angle s -> match_code_block s = Some (len, rep) ->
  only_formatter_tags rep.
Proof.
  unfold match_code_block. intros Hs.
  destruct (strip_prefix (lit "```") s) as [r0|] eqn:E0; [|congruence].
  destruct (span is_word r0) as [lang r1] eqn:E1.
  destruct r1 as [|c r2]; [congruence|].
  destruct (Ascii.eqb c newline); [|congruence].
  destruct (find_fence r2) as [[code after]|] eqn:E2; [|congruence].
  intros H.
  replace rep
    with (pre_open (match lang with [] => lit "text" | _ => lang end)
            ++ trim code ++ pre_close) by congruence.
  clear H. apply strip_prefix_app in E0. apply span_app in E1 as E1'.
  apply span_Forall in E1. apply find_fence_app in E2.
  assert (Hcode : no_angle code).
  { subst s r0 r2. unfold no_angle in *.
    rewrite !Forall_app, Forall_cons, !Forall_app in Hs. tauto. }
  unfold pre_open, pre_close.
  apply only_tags_app; [|apply only_tags_app].
  - apply only_tags_app; [auto with fmt|].
    apply only_tags_tag, tag_code_lang.
    destruct lang; [apply text_is_word | exact E1].
  - apply no_angle_only_tags, trim_Forall, Hcode.
  - apply only_tags_app; auto with fmt.
Qed.

(** *** The replacement engine on a text with formatter tags *)

Lemma rewrites_refl s : rewrites s s.
Proof. induction s; constructor; assumption. Qed.

Lemma rewrites_app s1 o1 s2 o2 :
  rewrites s1 o1 -> rewrites s2 o2 -> rewrites (s1 ++ s2) (o1 ++ o2).
Proof.
  induction 1 as [|c s out H IH|c t s out Hc Ht H IH]; intros H2; simpl.
  - exact H2.
  - constructor. auto.
  - rewrite <- app_assoc. constructor; auto.
Qed.

Lemma rewrites_erase d : Forall is_delim d -> rewrites d [].
Proof.
  induction 1 as [|c d Hc Hd IH]; [constructor|].
  change (@nil ascii) with ([] ++ @nil ascii).
  apply rw_subst; [exact Hc | constructor | exact IH].
Qed.

Lemma rewrites_delim d t :
  Forall is_delim d -> d <> [] -> only_formatter_tags t -> rewrites d t.
Proof.
  intros Hd Hne Ht. destruct d as [|c d]; [congruence|].
  apply Forall_cons in Hd as [Hc Hd].
  rewrite <- (app_nil_r t). apply rw_subst; [exact Hc | exact Ht |].
  apply rewrites_erase, Hd.
Qed.

Lemma replace_go_rewrites m :
  matcher_rewrites m ->
  forall s skip, rewrites (drop skip s) (replace_go m skip s).
Proof.
  intros Hm s. induction s as [|c r IH]; intros skip; simpl.
  - rewrite drop_nil. constructor.
  - destruct skip as [|k]; [|apply IH].
    destruct (m (c :: r)) as [[len rep]|] eqn:E.
    + destruct (Hm _ _ _ E) as [Hlen Hrw].
      destruct len as [|n]; [lia|]. simpl in *.
      rewrite <- (take_drop n r) at 1.
      apply (rewrites_app (c :: take n r)); [exact Hrw | apply IH].
    + simpl. constructor. apply (IH 0).
Qed.

Lemma match_delimited_rewrites d stop open close :
  Forall is_delim d -> d <> [] ->
  only_formatter_tags open -> only_formatter_tags close ->
  matcher_rewrites (match_delimited d stop open close).
Proof.
  intros Hd Hne Hopen Hclose s len rep. unfold match_delimited.
  destruct (strip_prefix d s) as [r0|] eqn:E0; [|congruence].
  destruct (span _ r0) as [run r1] eqn:E1.
  destruct run as [|x run]; [congruence|].
  destruct (strip_prefix d r1) as [r2|] eqn:E2; [|congruence].
  intros [= <- <-].
  apply strip_prefix_app in E0, E2. apply span_app in E1.
  split; [destruct d; [congruence | simpl; lia]|].
  subst s r0 r1.
  replace (take _ _) with (d ++ (x :: run) ++ d).
  - apply rewrites_app; [apply rewrites_delim; assumption|].
    apply (rewrites_app (x :: run) (x :: run) d close);
      [apply rewrites_refl | apply rewrites_delim; assumption].
  - rewrite !app_assoc. rewrite take_app_length'; [reflexivity|].
    rewrite !length_app. reflexivity.
Qed.

Ltac delims :=
  repeat first
    [ apply Forall_nil_2
    | apply Forall_cons_2; [unfold is_delim; auto |] ].

Lemma match_newline_rewrites : matcher_rewrites match_newline.
Proof.
  intros s len rep. unfold match_newline.
  destruct s as [|c r]; [congruence|].
  destruct (Ascii.eqb_spec c newline) as [->|]; [|congruence].
  intros [= <- <-]. split; [lia|]. simpl. rewrite take_0.
  apply rewrites_delim; [delims | congruence |].
  apply only_tags_tag, tag_br.
Qed.

Lemma delim_not_word c : is_delim c -> is_word c = false.
Proof. intros [->|[->| ->]]; reflexivity. Qed.

Lemma formatter_tag_no_delim t :
  formatter_tag t -> Forall (fun c => ~ is_delim c) t.
Proof.
  destruct 1;
    try (repeat constructor; intros [H|[H|H]]; discriminate H).
  rewrite !Forall_app. repeat split;
    try (repeat constructor; intros [H0|[H0|H0]]; discriminate H0).
  eapply Forall_impl; [eassumption|].
  intros c Hc Hd. apply delim_not_word in Hd. congruence.
Qed.

Lemma rewrites_keep_prefix t s out :
  Forall (fun c => ~ is_delim c) t -> rewrites (t ++ s) out ->
  exists out', out = t ++ out' /\ rewrites s out'.
Proof.
  intros Ht. revert out. induction Ht as [|c t Hc Ht IH]; intros out; simpl.
  - eauto.
  - inversion 1 as [|c' s' out1 H1|c' t' s' out1 Hd]; subst; [|contradiction].
    destruct (IH _ H1) as (out' & -> & Hrw). eauto.
Qed.

Lemma rewrites_only_tags s out :
  only_formatter_tags s -> rewrites s out -> only_formatter_tags out.
Proof.
  intros Hs. revert out.
  induction Hs as [|c s Hlt Hgt Hs IH|t s Ht Hs IH]; intros out Hrw.
  - inversion Hrw. constructor.
  - inversion Hrw as [|c' s' out1 H1|c' t' s' out1 Hd Ht' H1]; subst.
    + apply oft_char; auto.
    + apply only_tags_app; auto.
  - apply rewrites_keep_prefix in Hrw as (out' & -> & Hrw);
      [|apply formatter_tag_no_delim, Ht].
    apply oft_tag; auto.
Qed.

Lemma replace_all_only_tags m s :
  matcher_rewrites m -> only_formatter_tags s ->
  only_formatter_tags (replace_all m s).
Proof.
  intros Hm Hs. eapply rewrites_only_tags; [exact Hs|].
  apply (replace_go_rewrites m Hm s 0).
Qed.

Lemma format_chars_only_tags s : only_formatter_tags (format_chars s).
Proof.
  unfold format_chars.
  apply replace_all_only_tags; [apply match_newline_rewrites|].
  apply replace_all_only_tags;
    [apply match_delimited_rewrites;
       [delims | discriminate | auto with fmt ..]|].
  apply replace_all_only_tags;
    [apply match_delimited_rewrites;
       [delims | discriminate | auto with fmt ..]|].
  apply replace_all_only_tags;
    [apply match_delimited_rewrites;
       [delims | discriminate | auto with fmt ..]|].
  apply replace_go_plain; [apply match_code_block_plain | apply escapeHtml_no_angle].
Qed.


(** C10: [formatMessageContent] first escapes its input, which turns every
    [<], [>] and [&] into an entity and leaves no angle bracket, and only
    then rewrites markdown; in its result every angle bracket belongs to a
    tag the formatter wrote itself ([pre], [code], [strong], [em], [br]). *)
Theorem formatMessageContent_sanitizes (content : string) :
  (escape_char "<" = lit "&lt;" /\ escape_char ">" = lit "&gt;"
   /\ escape_char "&" = lit "&amp;") /\
  no_angle (escapeHtml (lit content)) /\
  only_formatter_tags (lit (formatMessageContent content)).
Proof.
  split; [repeat split|]. split; [apply escapeHtml_no_angle|].
  unfold formatMessageContent, text, lit.
  rewrite String.list_ascii_of_string_of_list_ascii.
  apply format_chars_only_tags.
Qed.

Example format_inline :
  formatMessageContent "<b>a & b</b> **x** *y* `z`"
  = "&lt;b&gt;a &amp; b&lt;/b&gt; <strong>x</strong> <em>y</em> <code>z</code>".
Proof. reflexivity. Qed.

Example format_code_block :
  formatMessageContent ("```js" +:+ nl +:+ " if (a<b) *p* " +:+ nl +:+ "```")
  = text (pre_open (lit "js")) +:+ "if (a&lt;b) <em>p</em>"
      +:+ text pre_close.
Proof. reflexivity. Qed.

End FormatFacts.

(** ** Settings *)

Module SettingsFacts.
Import Settings.

Lemma str_or_missing d : str_or None d = d.
Proof. reflexivity. Qed.

Lemma str_or_stored s d : s <> "" -> str_or (Some s) d = s.
Proof.
  intros Hs. unfold str_or.
  destruct (String.eqb_spec s ""); [contradiction | reflexivity].
Qed.

(** What the initialiser does keep: a stored non-empty endpoint, model and
    theme, a stored temperature that parses to a number other than zero,
    and the voice flag as the text [true]. *)
Lemma loadConfig_keeps (ls : gmap string string) :
  (forall s, ls !! "apiEndpoint" = Some s -> s <> "" ->
             apiEndpoint (loadConfig ls) = s) /\
  (forall s, ls !! "model" = Some s -> s <> "" -> model (loadConfig ls) = s) /\
  (forall s, ls !! "theme" = Some s -> s <> "" -> theme (loadConfig ls) = s) /\
  (forall s, ls !! "temperature" = Some s -> num_truthy (parseFloat s) = true ->
             temperature (loadConfig ls) = parseFloat s) /\
  (forall s, ls !! "voiceOutput" = Some s ->
             voiceOutput (loadConfig ls) = String.eqb s "true").
Proof.
  unfold loadConfig, getItem; simpl. repeat split; intros s Hs.
  - intros Hne. rewrite Hs. apply str_or_stored, Hne.
  - intros Hne. rewrite Hs. apply str_or_stored, Hne.
  - intros Hne. rewrite Hs. apply str_or_stored, Hne.
  - intros Hne. rewrite Hs. unfold parseFloat_item, num_or. simpl.
    rewrite Hne. reflexivity.
  - rewrite Hs. reflexivity.
Qed.

(** What falls back to the default: a missing field, and a temperature
    that does not parse. *)
Lemma loadConfig_defaults (ls : gmap string string) :
  (ls !! "apiEndpoint" = None -> apiEndpoint (loadConfig ls) = default_apiEndpoint) /\
  (ls !! "model" = None -> model (loadConfig ls) = default_model) /\
  (ls !! "theme" = None -> theme (loadConfig ls) = default_theme) /\
  (ls !! "voiceOutput" = None -> voiceOutput (loadConfig ls) = false) /\
  (ls !! "temperature" = None -> temperature (loadConfig ls) = default_temperature) /\
  (forall s, ls !! "temperature" = Some s -> parseFloat s = NaN ->
             temperature (loadConfig ls) = default_temperature).
Proof.
  unfold loadConfig, getItem; simpl.
  repeat split; try (intros ->; reflexivity).
  intros s -> Hnan. unfold parseFloat_item, num_or. simpl. rewrite Hnan.
  reflexivity.
Qed.

Example parseFloat_samples :
  map parseFloat ["0.7"; " -1.5e3x"; "abc"; "."; "5."; "null"]
  = [Dec false 7 (-1); Dec true 15 2; NaN; NaN; Dec false 5 0; NaN].
Proof. reflexivity. Qed.

(** A literal beyond the range of a double is an infinity, which is truthy
    and kept; one below it is zero, which is falsy and replaced by the
    default. *)
Example parseFloat_range :
  map parseFloat ["1e400"; "-1e400"; "1e-400"; "1.7976931348623157e308";
                  "1.7976931348623159e308"; "5e-324"; "2e-324"]
  = [Infinity false; Infinity true; Dec false 0 0;
     Dec false 17976931348623157 292; Infinity false;
     Dec false 5 (-324); Dec false 0 0] /\
  temperature (loadConfig {[ "temperature" := "1e-400" ]}) = default_temperature /\
  temperature (loadConfig {[ "temperature" := "1e400" ]}) = Infinity false.
Proof. vm_compute. repeat split. Qed.

Example migrate_old_endpoint :
  let ls : gmap string string :=
    {[ "apiEndpoint" := "https://nao-ai.onrender.com/" ]} in
  apiEndpoint (migrate (loadConfig ls, ls)).1 = "http://localhost:8000" /\
  (migrate (loadConfig ls, ls)).2 !! "apiEndpoint" = Some "http://localhost:8000".
Proof. split; reflexivity. Qed.

End SettingsFacts.

(** ** The chat client *)

Module ChatFacts.
Import Settings Chat ChatSpec.

Section WithHost.
Context `{Host}.

(** *** What [addMessage] touches *)

Lemma addMessage_STATE role content reasoning imageUrl now w :
  STATE (addMessage role content reasoning imageUrl now w)
  = set_messages
      (messages (STATE w) ++ [stored role content reasoning imageUrl now])
      (STATE w).
Proof.
  unfold addMessage, updateSessionStats, originalAddMessage.
  destruct (String.eqb role "bot" && _); reflexivity.
Qed.

Lemma addMessage_container role content reasoning imageUrl now w :
  container (page (addMessage role content reasoning imageUrl now w))
  = container (page w)
      ++ [MessageNode (createMessageElement role content reasoning imageUrl now)].
Proof.
  unfold addMessage, updateSessionStats, originalAddMessage.
  destruct (String.eqb role "bot" && _); reflexivity.
Qed.

Lemma addMessage_toasts role content reasoning imageUrl now w :
  toasts (effects (addMessage role content reasoning imageUrl now w))
  = toasts (effects w).
Proof.
  unfold addMessage, updateSessionStats, originalAddMessage.
  destruct (String.eqb role "bot" && _); reflexivity.
Qed.

Lemma addMessage_requests role content reasoning imageUrl now w :
  requests (effects (addMessage role content reasoning imageUrl now w))
  = requests (effects w).
Proof.
  unfold addMessage, updateSessionStats, originalAddMessage.
  destruct (String.eqb role "bot" && _); reflexivity.
Qed.

Lemma addMessage_CONFIG role content reasoning imageUrl now w :
  CONFIG (addMessage role content reasoning imageUrl now w) = CONFIG w.
Proof.
  unfold addMessage, updateSessionStats, originalAddMessage.
  destruct (String.eqb role "bot" && _); reflexivity.
Qed.

Lemma addMessage_localStorage role content reasoning imageUrl now w :
  localStorage (addMessage role content reasoning imageUrl now w)
  = localStorage w.
Proof.
  unfold addMessage, updateSessionStats, originalAddMessage.
  destruct (String.eqb role "bot" && _); reflexivity.
Qed.

(** *** Sending *)

Lemma sendMessage_accepts message imageData imageType now w :
  isProcessing (STATE w) = false ->
  let w' := sendMessage message imageData imageType now w in
  isProcessing (STATE w') = true /\
  sessionId (STATE w') = sessionId (STATE w) /\
  messages (STATE w')
  = messages (STATE w)
      ++ [stored "user" message None (image_url imageData imageType) now] /\
  container (page w')
  = container (page w)
      ++ [MessageNode (createMessageElement "user" message None
                         (image_url imageData imageType) now);
          TypingNode] /\
  toasts (effects w') = toasts (effects w) /\
  requests (effects w')
  = requests (effects w)
      ++ [PostChat (apiEndpoint (CONFIG w) +:+ "/chat") message
            (sessionId (STATE w)) (model (CONFIG w)) (temperature (CONFIG w))
            imageData imageType].
Proof.
  intros Hidle. unfold sendMessage. rewrite Hidle. cbv zeta.
  fold (image_url imageData imageType).
  unfold showTypingIndicator, clearImagePreview.
  cbn [STATE page effects CONFIG upd_STATE upd_page upd_effects
       isProcessing sessionId messages container toasts requests
       set_image set_preview set_inputValue set_container add_request].
  rewrite addMessage_STATE, addMessage_container, addMessage_toasts,
    addMessage_requests, addMessage_CONFIG.
  cbn. rewrite <- app_assoc. repeat split; reflexivity.
Qed.

Lemma settle_isProcessing o now w :
  isProcessing (STATE (sendMessage_settle o now w)) = false.
Proof. reflexivity. Qed.

Lemma settle_failure o now w reason :
  chat_result o = inl reason ->
  let w' := sendMessage_settle o now w in
  sessionId (STATE w') = sessionId (STATE w) /\
  messages (STATE w')
  = messages (STATE w) ++ [stored "bot" (error_text reason) None None now] /\
  container (page w')
  = remove_typing (container (page w))
      ++ [MessageNode (createMessageElement "bot" (error_text reason) None None now)] /\
  toasts (effects w') = toasts (effects w) ++ [error_toast reason] /\
  requests (effects w') = requests (effects w).
Proof.
  intros Hr. unfold sendMessage_settle. rewrite Hr. cbv zeta.
  fold (error_text reason). unfold showToast, removeTypingIndicator.
  cbn [STATE page effects CONFIG upd_STATE upd_page upd_effects
       isProcessing sessionId messages container toasts requests
       set_isProcessing set_sendDisabled add_toast].
  rewrite addMessage_STATE, addMessage_container, addMessage_toasts,
    addMessage_requests.
  repeat split; reflexivity.
Qed.

Lemma send_failed_result o :
  send_failed o = true -> exists reason, chat_result o = inl reason.
Proof.
  destruct o as [msg|[] [msg|e]]; simpl; intros Hf; try discriminate; eauto.
Qed.

Lemma remove_typing_last l : TypingNode ∉ l -> remove_typing (l ++ [TypingNode]) = l.
Proof.
  induction l as [|n l IH]; intros Hn; simpl; [reflexivity|].
  apply not_elem_of_cons in Hn as [Hne Hl].
  destruct n; try congruence; f_equal; auto.
Qed.


(** C1: while a send is in flight (the processing flag is set) a further
    call of [sendMessage], or any number of them, changes nothing: no state
    change, no message, no request.  Once the pending send settles, whatever
    its outcome, the flag is cleared and the next call is accepted: it sets
    the flag, appends the user's message and issues the request. *)
Theorem sendMessage_single_flight message imageData imageType now w :
  isProcessing (STATE w) = true ->
  sendMessage message imageData imageType now w = w /\
  (forall calls : list (string * option string * option string * Z),
     fold_left (fun w c => sendMessage c.1.1.1 c.1.1.2 c.1.2 c.2 w) calls w = w) /\
  forall o now',
    let w' := sendMessage_settle o now' w in
    isProcessing (STATE w') = false /\
    let w'' := sendMessage message imageData imageType now w' in
    isProcessing (STATE w'') = true /\
    messages (STATE w'')
    = messages (STATE w')
        ++ [stored "user" message None (image_url imageData imageType) now] /\
    requests (effects w'')
    = requests (effects w')
        ++ [PostChat (apiEndpoint (CONFIG w') +:+ "/chat") message
              (sessionId (STATE w')) (model (CONFIG w'))
              (temperature (CONFIG w')) imageData imageType].
Proof.
  intros Hbusy.
  assert (Hnop : forall m i t n, sendMessage m i t n w = w).
  { intros. unfold sendMessage. rewrite Hbusy. reflexivity. }
  split; [apply Hnop|]. split.
  - induction calls as [|c calls IH]; simpl; [reflexivity|].
    rewrite Hnop. exact IH.
  - intros o now' w'. split; [apply settle_isProcessing|].
    destruct (sendMessage_accepts message imageData imageType now w'
                (settle_isProcessing o now' w))
      as (Hp & _ & Hm & _ & _ & Hr).
    auto.
Qed.

(** C2: a send whose request fails (the fetch is rejected, or the response
    is not ok) ends with the typing placeholder removed, exactly one bot
    message describing the failure appended after the user's optimistic
    message, which stays in the log, an error notice shown, and the
    processing flag cleared; the flag is cleared after every outcome. *)
Theorem failed_send_recovery message imageData imageType now o now' w :
  isProcessing (STATE w) = false ->
  send_failed o = true ->
  let w1 := sendMessage message imageData imageType now w in
  let w2 := sendMessage_settle o now' w1 in
  let user_url := image_url imageData imageType in
  exists reason,
    chat_result o = inl reason /\
    messages (STATE w2)
    = messages (STATE w)
        ++ [stored "user" message None user_url now;
            stored "bot" (error_text reason) None None now'] /\
    container (page w2)
    = remove_typing
        (container (page w)
           ++ [MessageNode (createMessageElement "user" message None user_url now);
               TypingNode])
        ++ [MessageNode (createMessageElement "bot" (error_text reason)
                           None None now')] /\
    (TypingNode ∉ container (page w) -> TypingNode ∉ container (page w2)) /\
    toasts (effects w2) = toasts (effects w) ++ [error_toast reason] /\
    isProcessing (STATE w2) = false /\
    (forall o' t w0, isProcessing (STATE (sendMessage_settle o' t w0)) = false).
Proof.
  intros Hidle Hfail w1 w2 user_url.
  destruct (send_failed_result o Hfail) as [reason Hr].
  exists reason. split; [exact Hr|].
  destruct (sendMessage_accepts message imageData imageType now w Hidle)
    as (_ & _ & Hm1 & Hc1 & Ht1 & _).
  destruct (settle_failure o now' w1 reason Hr) as (_ & Hm2 & Hc2 & Ht2 & _).
  fold w1 in Hm1, Hc1, Ht1. fold w2 in Hm2, Hc2, Ht2.
  repeat split.
  - rewrite Hm2, Hm1, <- app_assoc. reflexivity.
  - rewrite Hc2, Hc1. reflexivity.
  - intros Hno. rewrite Hc2, Hc1.
    rewrite (app_assoc _ [_] [TypingNode] : _ ++ [_; TypingNode] = _),
      remove_typing_last.
    + rewrite !not_elem_of_app, !not_elem_of_cons. repeat split; auto;
        try discriminate; apply not_elem_of_nil.
    + rewrite not_elem_of_app, not_elem_of_cons. repeat split; auto;
        try discriminate; apply not_elem_of_nil.
  - rewrite Ht2, Ht1. reflexivity.
Qed.

(** *** Loading a session *)

Lemma loadSession_settle_throws id o now w :
  load_throws o = true ->
  loadSession_settle id o now w = showToast "Error loading chat" "error" w.
Proof. destruct o as [msg|ok [msg|data]]; simpl; congruence. Qed.

Lemma loadSession_settle_without_messages id o now w :
  load_without_messages o = true -> loadSession_settle id o now w = w.
Proof.
  destruct o as [msg|ok [msg|[[msgs|]]]]; simpl; try discriminate.
  reflexivity.
Qed.

(** The failures [loadSession] handles: when the fetch is rejected or the
    body is not JSON, the [catch] clause runs, so the session identifier,
    the log, the transcript and the stored identifier are untouched and
    the notice [Error loading chat] is raised.  A decoded body without
    messages skips both branches: the world is exactly as it was. *)
Theorem loadSession_failure_atomic id o now w :
  load_throws o = true \/ load_without_messages o = true ->
  let w' := loadSession_settle id o now w in
  STATE w' = STATE w /\
  page w' = page w /\
  localStorage w' = localStorage w /\
  same_session w w' /\
  (load_throws o = true ->
   toasts (effects w') = toasts (effects w) ++ [error_toast "Error loading chat"]) /\
  (load_without_messages o = true -> w' = w).
Proof.
  intros [Ht|Hn] w'; subst w'.
  - rewrite (loadSession_settle_throws _ _ _ _ Ht).
    repeat split; try reflexivity.
    destruct o as [msg|ok [msg|data]]; simpl in *; discriminate.
  - rewrite (loadSession_settle_without_messages _ _ _ _ Hn).
    repeat split; try reflexivity.
    destruct o as [msg|ok [msg|data]]; simpl in *; discriminate.
Qed.

Lemma fold_addMessage (msgs : list SessionMessage) now w :
  let w' :=
    fold_left
      (fun w msg =>
         addMessage (m_role msg) (m_content msg) (m_reasoning msg) None now w)
      msgs w in
  STATE w'
  = set_messages (messages (STATE w) ++ map (loaded now) msgs) (STATE w) /\
  container (page w') = container (page w) ++ map (loaded_node now) msgs /\
  localStorage w' = localStorage w /\
  toasts (effects w') = toasts (effects w).
Proof.
  revert w. induction msgs as [|m msgs IH]; intros w; simpl.
  - rewrite !app_nil_r. destruct (STATE w). repeat split; reflexivity.
  - destruct (IH (addMessage (m_role m) (m_content m) (m_reasoning m) None now w))
      as (Hs & Hc & Hl & Ht).
    rewrite Hs, Hc, Hl, Ht.
    rewrite addMessage_STATE, addMessage_container, addMessage_localStorage,
      addMessage_toasts.
    cbn [messages set_messages]. rewrite <- !app_assoc.
    repeat split; reflexivity.
Qed.

(** On success the fetched session replaces the identifier, the log and the
    transcript together: nothing of the previous session remains. *)
Lemma loadSession_success_replaces id ok msgs now w :
  let w' := loadSession_settle id
              (Response ok (Parsed {| s_messages := Some msgs |})) now w in
  sessionId (STATE w') = id /\
  messages (STATE w') = map (loaded now) msgs /\
  container (page w') = map (loaded_node now) msgs /\
  localStorage w' !! "sessionId" = Some id /\
  toasts (effects w')
  = toasts (effects w)
      ++ [{| toast_message := "Chat loaded!"; toast_type := "success" |}].
Proof.
  cbv zeta. unfold loadSession_settle, showToast, setItem.
  cbn [s_messages STATE page effects localStorage upd_STATE upd_page
       upd_effects upd_localStorage toasts add_toast container
       set_chatHistory].
  match goal with
  | |- context [fold_left ?f msgs ?w0] =>
    destruct (fold_addMessage msgs now w0) as (Hs & Hc & Hl & Ht)
  end.
  cbv zeta in Hs, Hc, Hl, Ht. rewrite Hs, Hc, Hl, Ht.
  repeat split; try reflexivity. apply lookup_insert_eq.
Qed.

(** C3, where the code departs from it: [loadSession] never reads the [ok]
    flag of the response, so a request that the backend refuses is not
    taken for a failure.  With an error body (no [messages]) the session
    is untouched but no notice of any kind is raised; with a body that
    carries messages the session is replaced as on success, under the
    notice [Chat loaded!].  Only a rejected fetch or a body that is not
    JSON reaches the [catch] clause, which does what the claim asks. *)
Theorem loadSession_failed_response_unreported id now w :
  (let o := Response false (Parsed {| s_messages := None |}) in
   let w' := loadSession_settle id o now w in
   load_failed o = true /\
   w' = w /\
   toasts (effects w') = toasts (effects w) /\
   ~ error_notice_raised w w') /\
  (forall msgs,
     let o := Response false (Parsed {| s_messages := Some msgs |}) in
     let w' := loadSession_settle id o now w in
     load_failed o = true /\
     sessionId (STATE w') = id /\
     messages (STATE w') = map (loaded now) msgs /\
     container (page w') = map (loaded_node now) msgs /\
     ~ error_notice_raised w w' /\
     (id <> sessionId (STATE w) -> ~ same_session w w')) /\
  (forall o,
     load_throws o = true ->
     let w' := loadSession_settle id o now w in
     load_failed o = true /\ same_session w w' /\ error_notice_raised w w').
Proof.
  split; [|split].
  - cbv zeta. repeat split.
    intros [message Hm]. simpl in Hm.
    apply (f_equal length) in Hm. rewrite length_app in Hm. simpl in Hm. lia.
  - intros msgs o w'.
    destruct (loadSession_success_replaces id false msgs now w)
      as (Hid & Hmsgs & Hc & _ & Ht).
    cbv zeta in Hid, Hmsgs, Hc, Ht. subst o w'.
    repeat split; try assumption.
    + intros [message Hm]. rewrite Ht in Hm.
      apply app_inv_head in Hm. discriminate Hm.
    + intros Hne [Hsame _]. rewrite Hid in Hsame. contradiction.
  - intros o Ht w'. subst w'.
    rewrite (loadSession_settle_throws _ _ _ _ Ht).
    split; [destruct o as [msg|ok [msg|data]]; simpl in *; congruence|].
    split; [repeat split|].
    exists "Error loading chat". reflexivity.
Qed.

(** *** New chat *)

Lemma generateSessionId_inj r0 r1 :
  generateSessionId r0 = generateSessionId r1 ->
  String.substring 2 13 r0 = String.substring 2 13 r1.
Proof. unfold generateSessionId. intros Heq. injection Heq. auto. Qed.

(** C4, as amended: [startNewChat] makes the session identifier
    [session_] followed by characters 2 to 14 of the random draw's base-36
    text, stores it under [sessionId], empties the log and leaves only the
    welcome panel in the transcript.  The new identifier differs from the
    previous one whenever the previous one is not that same text; in
    particular when the previous one came from a draw with other
    characters 2 to 14.  Nothing compares the two. *)
Theorem startNewChat_rotates rnd w :
  let w' := startNewChat rnd w in
  sessionId (STATE w') = "session_" +:+ String.substring 2 13 rnd /\
  (sessionId (STATE w) <> generateSessionId rnd ->
   sessionId (STATE w') <> sessionId (STATE w)) /\
  (forall r0,
     sessionId (STATE w) = generateSessionId r0 ->
     String.substring 2 13 r0 <> String.substring 2 13 rnd ->
     sessionId (STATE w') <> sessionId (STATE w)) /\
  localStorage w' !! "sessionId" = Some (sessionId (STATE w')) /\
  messages (STATE w') = [] /\
  container (page w') = [WelcomeNode] /\
  welcomeDisplay (page w') = "flex".
Proof.
  cbv zeta. repeat split.
  - intros Hne Heq. apply Hne. symmetry. exact Heq.
  - intros r0 Hprev Hne Heq. apply Hne. symmetry.
    apply generateSessionId_inj. rewrite <- Hprev. exact Heq.
  - apply lookup_insert_eq.
Qed.

(** *** Statistics *)

Lemma fold_tokens (msgs : list Message) acc :
  fold_left (fun tokens msg => tokens + estimateTokens (content msg)) msgs acc
  = acc + sum_list_with (fun m => estimateTokens (content m)) msgs.
Proof.
  revert acc. induction msgs as [|m msgs IH]; intros acc; simpl; [lia|].
  rewrite IH. lia.
Qed.

Lemma estimateTokens_ceil s :
  String.length s <= 4 * estimateTokens s < String.length s + 4.
Proof.
  unfold estimateTokens.
  pose proof (Nat.div_mod_eq (String.length s + 3) 4).
  pose proof (Nat.mod_upper_bound (String.length s + 3) 4). lia.
Qed.

(** C8: every append recomputes the statistics: the message counter shows
    the length of the log and the token counter the sum, over the log, of
    the content length divided by four and rounded up (each where its
    element exists on the page). *)
Theorem addMessage_recomputes_stats role content reasoning imageUrl now w :
  let w' := addMessage role content reasoning imageUrl now w in
  messages (STATE w')
  = messages (STATE w) ++ [stored role content reasoning imageUrl now] /\
  sessionMsgCount (page w')
  = (fun _ => pretty (length (messages (STATE w'))) +:+ " messages")
      <$> sessionMsgCount (page w) /\
  totalTokens (page w')
  = (fun _ => numberToLocaleString
                (sum_list_with (fun m => estimateTokens (Chat.content m))
                               (messages (STATE w'))))
      <$> totalTokens (page w) /\
  (forall s, String.length s <= 4 * estimateTokens s < String.length s + 4).
Proof.
  cbv zeta. split; [rewrite addMessage_STATE; reflexivity|].
  split; [|split; [|apply estimateTokens_ceil]].
  - unfold addMessage at 1. unfold updateSessionStats at 1. cbn.
    fold (addMessage role content reasoning imageUrl now w).
    unfold originalAddMessage.
    destruct (String.eqb role "bot" && _); cbn;
      destruct (sessionMsgCount (page w)); reflexivity.
  - unfold addMessage at 1. unfold updateSessionStats at 1. cbn.
    fold (addMessage role content reasoning imageUrl now w).
    rewrite fold_tokens. unfold originalAddMessage.
    destruct (String.eqb role "bot" && _); cbn;
      destruct (totalTokens (page w)); reflexivity.
Qed.

(** *** Image upload *)

Lemma includes_elem_of l s : includes l s = true <-> s ∈ l.
Proof.
  unfold includes. rewrite existsb_exists. split.
  - intros (x & Hin & Heq). apply String.eqb_eq in Heq. subst x.
    apply list_elem_of_In, Hin.
  - intros Hin. exists s. split; [apply list_elem_of_In, Hin|].
    apply String.eqb_refl.
Qed.

(** C9: [handleImageUpload] hands a file to the reader exactly when its
    type is one of the four image types and its size is at most
    10 * 1024 * 1024 bytes; an accepted file changes nothing until the
    reader has loaded it, and a rejected one only adds an error notice:
    the pending image and its type stay as they were. *)
Theorem handleImageUpload_validates f w :
  let r := handleImageUpload (Some f) w in
  (r.2 = Some f <-> acceptable f) /\
  (acceptable f -> r.1 = w) /\
  (~ acceptable f ->
   r.2 = None /\
   (exists message, r.1 = showToast message "error" w) /\
   error_notice_raised w r.1 /\
   currentImage (STATE r.1) = currentImage (STATE w) /\
   imageType (STATE r.1) = imageType (STATE w) /\
   STATE r.1 = STATE w /\ page r.1 = page w).
Proof.
  cbv zeta. unfold handleImageUpload, acceptable.
  destruct (includes validTypes (file_type f)) eqn:Hty; simpl.
  - apply includes_elem_of in Hty.
    destruct (N.ltb_spec (10 * 1024 * 1024) (file_size f)) as [Hbig|Hok]; simpl.
    + split; [split; [discriminate | intros [_ Hle]; lia]|].
      split; [intros [_ Hle]; lia|]. intros _.
      repeat split; try reflexivity; eexists; reflexivity.
    + split; [tauto|]. split; [reflexivity|]. tauto.
  - assert (Hnot : file_type f ∉ validTypes).
    { intros Hin. apply includes_elem_of in Hin. congruence. }
    split; [split; [discriminate | tauto]|].
    split; [tauto|]. intros _.
    repeat split; try reflexivity; eexists; reflexivity.
Qed.

(** *** Export *)

Lemma append_assoc (a b c : string) : (a +:+ b) +:+ c = a +:+ b +:+ c.
Proof.
  induction a as [|x a IH]; [reflexivity|].
  change (String x ((a +:+ b) +:+ c) = String x (a +:+ b +:+ c)).
  rewrite IH. reflexivity.
Qed.

Lemma append_nil_r (a : string) : a +:+ "" = a.
Proof.
  induction a as [|x a IH]; [reflexivity|].
  change (String x (a +:+ "") = String x a). rewrite IH. reflexivity.
Qed.

Lemma fold_transcript (step : string -> Message -> string)
    (entry : Message -> string) :
  (forall out m, step out m = out +:+ entry m) ->
  forall msgs out, fold_left step msgs out = transcript out entry msgs.
Proof.
  intros Hstep msgs. unfold transcript.
  induction msgs as [|m msgs IH]; intros out; simpl.
  - symmetry. apply append_nil_r.
  - rewrite IH, Hstep, append_assoc. reflexivity.
Qed.

Lemma exportChat_content_transcript now msgs :
  exportChat_content now msgs = transcript (txt_header now) txt_entry msgs.
Proof.
  unfold exportChat_content. cbv zeta.
  rewrite (fold_transcript _ txt_entry).
  - f_equal. unfold txt_header. rewrite !append_assoc. reflexivity.
  - intros out m. unfold txt_entry, reasoning_note, role_label.
    destruct (reasoning m); rewrite !append_assoc; reflexivity.
Qed.

Lemma exportMd_content_transcript now msgs :
  exportMd_content now msgs = transcript (md_header now) md_entry msgs.
Proof.
  unfold exportMd_content. cbv zeta.
  rewrite (fold_transcript _ md_entry).
  - reflexivity.
  - intros out m. unfold md_entry, role_label.
    destruct (String.eqb (role m) "user"); rewrite ?append_assoc; reflexivity.
Qed.

(** C5: the plain-text export and the Markdown export are a header followed
    by one entry per message of the log, in the order of the log; each
    entry holds the message's role label and its content, and the
    plain-text entry also the short reasoning of a message that has one.
    The two handlers download exactly these texts (the plain-text one when
    the log is not empty). *)
Theorem export_complete_in_order now w :
  let msgs := messages (STATE w) in
  exportChat_content now msgs = transcript (txt_header now) txt_entry msgs /\
  exportMd_content now msgs = transcript (md_header now) md_entry msgs /\
  (forall m, mentions (txt_entry m) (role_label m +:+ ":" +:+ nl +:+ content m)) /\
  (forall m r, reasoning m = Some r ->
               mentions (txt_entry m) ("Reasoning: " +:+ short r)) /\
  (forall m, mentions (md_entry m)
               (role_label m +:+ "**:" +:+ nl +:+ nl +:+ content m)) /\
  (msgs <> [] ->
   downloads (effects (exportChat now w))
   = downloads (effects w)
       ++ [{| filename := "chat-export-" +:+ pretty now +:+ ".txt";
              mime := "text/plain";
              body := transcript (txt_header now) txt_entry msgs |}]) /\
  downloads (effects (exportMd_click now w))
  = downloads (effects w)
      ++ [{| filename := "chat-export-" +:+ pretty now +:+ ".md";
             mime := "text/markdown";
             body := transcript (md_header now) md_entry msgs |}].
Proof.
  cbv zeta.
  split; [apply exportChat_content_transcript|].
  split; [apply exportMd_content_transcript|].
  split; [|split; [|split; [|split]]].
  - intros m. unfold mentions, txt_entry.
    exists ("[" +:+ formatTime (timestamp m) +:+ "] "),
           (nl +:+ reasoning_note m +:+ nl +:+ repeat_string "-" 30 +:+ nl +:+ nl).
    rewrite !append_assoc. reflexivity.
  - intros m r Hr. unfold mentions, txt_entry, reasoning_note. rewrite Hr.
    exists (("[" +:+ formatTime (timestamp m) +:+ "] ") +:+ role_label m
              +:+ (":" +:+ nl) +:+ content m +:+ nl +:+ nl),
           (nl +:+ nl +:+ repeat_string "-" 30 +:+ nl +:+ nl).
    rewrite !append_assoc. reflexivity.
  - intros m. unfold mentions, md_entry.
    exists "**", (nl +:+ nl +:+ "---" +:+ nl +:+ nl).
    rewrite !append_assoc. reflexivity.
  - intros Hne. unfold exportChat.
    destruct (messages (STATE w)) as [|m msgs] eqn:E; [congruence|].
    unfold showToast. cbn [effects downloads upd_effects add_download add_toast].
    rewrite exportChat_content_transcript. reflexivity.
  - unfold exportMd_click, showToast.
    cbn [effects downloads upd_effects add_download add_toast].
    rewrite exportMd_content_transcript. reflexivity.
Qed.

(** *** Runs: the single-flight invariant *)

Lemma settle_requests o now w :
  requests (effects (sendMessage_settle o now w))
  = requests (effects w)
      ++ match chat_result o with
         | inr _ => [GetSessions (apiEndpoint (CONFIG w) +:+ "/sessions?limit=20")]
         | inl _ => []
         end.
Proof.
  destruct (chat_result o) as [reason|data] eqn:Hr.
  - destruct (settle_failure o now w reason Hr) as (_ & _ & _ & _ & Hq).
    rewrite Hq, app_nil_r. reflexivity.
  - unfold sendMessage_settle. rewrite Hr. cbv zeta.
    unfold loadChatHistory, setItem, removeTypingIndicator.
    destruct (truthy (session_id data));
      cbn [STATE page effects CONFIG upd_STATE upd_page upd_effects
           upd_localStorage requests add_request];
      rewrite addMessage_requests, addMessage_CONFIG; reflexivity.
Qed.

Lemma settle_posts o now w : posts (sendMessage_settle o now w) = posts w.
Proof.
  unfold posts. rewrite settle_requests, sum_list_with_app.
  destruct (chat_result o); simpl; lia.
Qed.

Lemma step_single_flight r e : single_flight r -> single_flight (step r e).
Proof.
  unfold single_flight. intros Hinv. destruct e as [m i t now|o now]; simpl.
  - destruct (isProcessing (STATE (world r))) eqn:Hp.
    + unfold sendMessage. rewrite Hp, Hp. exact Hinv.
    + destruct (sendMessage_accepts m i t now (world r) Hp)
        as (Hp' & _ & _ & _ & _ & Hq).
      rewrite Hp'. unfold posts in *. rewrite Hq, sum_list_with_app. simpl. lia.
  - destruct (Nat.ltb_spec (settled r) (posts (world r))) as [Hlt|Hge];
      [|exact Hinv].
    cbn [world settled]. rewrite settle_posts, settle_isProcessing.
    destruct (isProcessing (STATE (world r))); lia.
Qed.

(** Along every run that starts with no request outstanding, at most one
    chat request is in flight at any time. *)
Lemma run_single_flight (events : list Event) r :
  single_flight r ->
  single_flight (fold_left step events r) /\
  posts (world (fold_left step events r))
    - settled (fold_left step events r) <= 1.
Proof.
  revert r. induction events as [|e events IH]; intros r Hinv; simpl.
  - split; [exact Hinv|]. unfold single_flight in Hinv.
    destruct (isProcessing (STATE (world r))); lia.
  - apply IH, step_single_flight, Hinv.
Qed.

Lemma sendBtn_click_in_flight now w :
  isProcessing (STATE w) = true -> sendBtn_click now w = w.
Proof.
  intros Hbusy. unfold sendBtn_click, sendMessage. rewrite Hbusy.
  destruct (_ || _); reflexivity.
Qed.
End WithHost.


Lemma sendMessage_single_flight_witness :
  let busy := sendMessage (H := plain_host) "hello" None None 0
                fresh in
  sendMessage (H := plain_host) "again" None None 5 busy = busy.
Proof.
  apply (sendMessage_single_flight (H := plain_host) "again" None None 5).
  reflexivity.
Defined.

Lemma failed_send_recovery_witness :
  let w := fresh in
  let w2 := sendMessage_settle (H := plain_host)
              (Response false (Parsed {| detail := Some "Model unavailable";
                                         final_answer := "";
                                         short_reasoning := "";
                                         full_reasoning := "";
                                         session_id := None |})) 9
              (sendMessage (H := plain_host) "hello" None None 0 w) in
  exists reason, reason = "Model unavailable" /\
    map content (messages (STATE w2)) = ["hello"; error_text reason] /\
    isProcessing (STATE w2) = false.
Proof.
  assert (Hidle : isProcessing (STATE fresh)
                  = false) by reflexivity.
  destruct (failed_send_recovery (H := plain_host) "hello" None None 0
              (Response false (Parsed {| detail := Some "Model unavailable";
                                         final_answer := "";
                                         short_reasoning := "";
                                         full_reasoning := "";
                                         session_id := None |})) 9
              fresh Hidle eq_refl)
    as (reason & Hr & Hm & _ & _ & _ & Hp & _).
  exists reason. cbv zeta. split; [|split].
  - simpl in Hr. congruence.
  - rewrite Hm. reflexivity.
  - exact Hp.
Defined.


Lemma loadSession_failure_atomic_witness :
  let w := fresh in
  let w' := loadSession_settle (H := plain_host) "session_old"
              (Rejected "Failed to fetch") 0 w in
  same_session w w' /\
  toasts (effects w') = [error_toast "Error loading chat"].
Proof.
  destruct (loadSession_failure_atomic (H := plain_host) "session_old"
              (Rejected "Failed to fetch") 0
              fresh (or_introl eq_refl))
    as (_ & _ & _ & Hsame & Htoast & _).
  split; [exact Hsame | exact (Htoast eq_refl)].
Defined.

(** Not every failed call raises a notice: a response that is not ok, with
    an error body as the backend sends it for an unknown session, is
    ignored without any. *)
Lemma loadSession_error_body_is_silent :
  ~ (forall (H : Host) id o now w,
       load_failed o = true ->
       let w' := loadSession_settle id o now w in
       same_session w w' /\ error_notice_raised w w').
Proof.
  intros Hclaim.
  destruct (Hclaim plain_host "session_gone"
              (Response false (Parsed {| s_messages := None |})) 0%Z
              fresh eq_refl)
    as [_ [message Hm]].
  discriminate Hm.
Qed.

(** C4, as stated, fails: when the draw renders as [0.i] (one half in base
    36) and the current identifier is [session_i], the new identifier is
    the old one. *)
Lemma startNewChat_same_identifier :
  ~ (forall rnd w,
       sessionId (STATE (startNewChat rnd w)) <> sessionId (STATE w)).
Proof.
  intros Hclaim.
  apply (Hclaim "0.i" (startNewChat "0.i" fresh)).
  reflexivity.
Qed.

Example startNewChat_demo :
  let w := startNewChat "0.k3f9x2m1q8zt7" fresh in
  sessionId (STATE w) = "session_k3f9x2m1q8zt7" /\
  localStorage w !! "sessionId" = Some "session_k3f9x2m1q8zt7".
Proof. split; reflexivity. Qed.

Example send_success_demo :
  let w := sendMessage_settle (H := plain_host)
             (Response true
                (Parsed {| detail := None; final_answer := "hi there";
                           short_reasoning := "greet"; full_reasoning := "long";
                           session_id := Some "srv_1" |})) 3
             (sendMessage (H := plain_host) "hello" None None 0 fresh) in
  map content (messages (STATE w)) = ["hello"; "hi there"] /\
  map role (messages (STATE w)) = ["user"; "bot"] /\
  sessionId (STATE w) = "srv_1" /\
  localStorage w !! "sessionId" = Some "srv_1" /\
  isProcessing (STATE w) = false /\
  length (container (page w)) = 3 /\
  sessionMsgCount (page w) = Some "2 messages" /\
  totalTokens (page w) = Some "4".
Proof. repeat split; reflexivity. Qed.

Example image_upload_demo :
  let f := {| file_type := "image/png"; file_size := 2048 |} in
  let r := handleImageUpload (Some f) fresh in
  r.2 = Some f /\
  currentImage (STATE (reader_onload f "data:image/png;base64,iVBORw0KGgo=" r.1))
  = Some "iVBORw0KGgo=" /\
  (handleImageUpload
     (Some {| file_type := "image/svg+xml"; file_size := 2048 |}) fresh).2 = None /\
  (handleImageUpload
     (Some {| file_type := "image/png"; file_size := 10485761 |}) fresh).2 = None.
Proof. repeat split; reflexivity. Qed.

Example estimateTokens_samples :
  map estimateTokens [""; "a"; "abcd"; "abcde"] = [0; 1; 1; 2].
Proof. reflexivity. Qed.

Example export_demo :
  let w := addMessage (H := plain_host) "bot" "hello"
             (Some {| short := "greeting"; full := "a greeting" |}) None 1
             (addMessage (H := plain_host) "user" "hi" None None 0
                fresh) in
  exportMd_content (H := plain_host) 7 (messages (STATE w))
  = "# AI Chatbot Export" +:+ nl +:+ nl +:+ "**Date:** 7" +:+ nl +:+ nl
      +:+ "---" +:+ nl +:+ nl
      +:+ "**You**:" +:+ nl +:+ nl +:+ "hi" +:+ nl +:+ nl +:+ "---" +:+ nl +:+ nl
      +:+ "**AI**:" +:+ nl +:+ nl +:+ "hello" +:+ nl +:+ nl +:+ "---" +:+ nl +:+ nl.
Proof. reflexivity. Qed.

End ChatFacts.

(** ** Saving and reloading the settings *)

Module SettingsReload.
Import Settings Chat ChatSpec.

(** C6, at the input where the code departs from it: a stored temperature
    of [0] is a number, and a valid setting (it is what
    [saveSettingsToStorage] writes when the slider stands at [0]), yet the
    initialiser replaces it by the default [0.7], because [0] is falsy
    for [||]. *)
Theorem loadConfig_zero_temperature_lost :
  let ls : gmap string string := {[ "temperature" := "0" ]} in
  let saved :=
    saveSettingsToStorage (H := plain_host)
      {| modelSelect := "deepseek/deepseek-chat"; temperatureSlider := "0";
         voiceOutputToggle := false;
         apiEndpointInput := "http://localhost:8000" |} fresh in
  parseFloat "0" = Dec false 0 0 /\
  temperature (loadConfig ls) = Dec false 7 (-1) /\
  temperature (loadConfig ls) <> parseFloat "0" /\
  temperature (CONFIG saved) = Dec false 0 0 /\
  localStorage saved !! "temperature" = Some "0" /\
  temperature (loadConfig (localStorage saved)) = Dec false 7 (-1).
Proof. cbv zeta. repeat split. discriminate. Qed.

Example save_reload_keeps_nonzero :
  let saved :=
    saveSettingsToStorage (H := plain_host)
      {| modelSelect := "deepseek/deepseek-chat"; temperatureSlider := "1.5";
         voiceOutputToggle := true;
         apiEndpointInput := "http://localhost:8000" |} fresh in
  loadConfig (localStorage saved) = CONFIG saved.
Proof. reflexivity. Qed.

End SettingsReload.

(** ** Backup restore *)

Module RestoreFacts.
Import Restore RestoreSpec.

Lemma truthy_lacking k backup : lacks k backup -> truthy (get k backup) = false.
Proof. unfold lacks. intros ->. reflexivity. Qed.

Lemma restore_invalid_toast toString file s :
  invalid file ->
  restore toString file s = toast "Error reading backup file" "error" s \/
  restore toString file s = toast "Invalid backup file" "error" s.
Proof.
  destruct file as [|backup]; simpl; [auto|].
  intros Hlack.
  assert (Hgate : truthy (get "version" backup) && truthy (get "config" backup)
                  = false).
  { destruct Hlack as [Hl|Hl]; rewrite (truthy_lacking _ _ Hl);
      [reflexivity | apply andb_false_r]. }
  destruct backup; auto; rewrite Hgate; auto.
Qed.

(** C7: a backup that is not JSON, or whose parsed content lacks the
    [version] field or the [config] field, is rejected with an error
    notice; [CONFIG], the session identifier, the log and local storage stay
    exactly as they were, and no reload is scheduled. *)
Theorem restore_rejects_invalid toString file s :
  invalid file ->
  let s' := restore toString file s in
  rCONFIG s' = rCONFIG s /\
  rSessionId s' = rSessionId s /\
  rMessages s' = rMessages s /\
  rLocalStorage s' = rLocalStorage s /\
  rReload s' = rReload s /\
  exists message,
    rToasts s' = rToasts s ++ [{| Chat.toast_message := message;
                                  Chat.toast_type := "error" |}].
Proof.
  intros Hinv s'. subst s'.
  destruct (restore_invalid_toast toString file s Hinv) as [-> | ->];
    repeat split; eexists; reflexivity.
Qed.

Lemma restore_rejects_invalid_witness :
  let file := Json (JObj [("config", JObj [("model", JStr "x")])]) in
  let s' := restore plain_toString file some_store in
  rCONFIG s' = rCONFIG some_store /\
  rLocalStorage s' = rLocalStorage some_store /\
  rReload s' = false.
Proof.
  destruct (restore_rejects_invalid plain_toString
              (Json (JObj [("config", JObj [("model", JStr "x")])]))
              some_store (or_introl eq_refl))
    as (Hc & _ & _ & Hl & Hr & _).
  repeat split; assumption.
Defined.

Example restore_applies_valid :
  let file := Json (JObj [("version", JStr "1.0");
                          ("config", JObj [("model", JStr "x")]);
                          ("localStorage", JObj [("theme", JStr "light")])]) in
  let s' := restore plain_toString file some_store in
  rCONFIG s' !! "model" = Some (JStr "x") /\
  rLocalStorage s' !! "theme" = Some "light" /\
  rSessionId s' = rSessionId some_store /\
  rReload s' = true.
Proof. repeat split; reflexivity. Qed.

End RestoreFacts.

(** ** Further properties of the formatter *)

Module FormatMore.
Import Format FormatSpec ShellSpec.

Lemma replace_go_no_match (Q : ascii -> Prop) m :
  (forall s, Forall Q s -> m s = None) ->
  forall s, Forall Q s -> replace_go m 0 s = s.
Proof.
  intros Hm s Hs. induction Hs as [|c r Hc Hr IH]; simpl; [reflexivity|].
  rewrite (Hm (c :: r)) by (constructor; assumption).
  f_equal. exact IH.
Qed.

Lemma strip_prefix_head_absent d0 d s :
  Forall (fun c => Ascii.eqb d0 c = false) s -> strip_prefix (d0 :: d) s = None.
Proof. destruct 1 as [|c r Hc Hr]; simpl; [reflexivity | rewrite Hc; reflexivity]. Qed.

Lemma plain_not (x : ascii) s :
  is_special x = true -> plain s -> Forall (fun c => Ascii.eqb x c = false) s.
Proof.
  intros Hx Hs. eapply Forall_impl; [exact Hs|]. simpl. intros c Hc.
  destruct (Ascii.eqb_spec x c) as [->|]; [congruence | reflexivity].
Qed.

Lemma escapeHtml_plain s : plain s -> escapeHtml s = s.
Proof.
  unfold escapeHtml. induction 1 as [|c r Hc Hr IH]; simpl; [reflexivity|].
  rewrite IH. unfold escape_char. unfold is_special in Hc.
  repeat (apply orb_false_elim in Hc as [Hc ?]).
  repeat match goal with H : Ascii.eqb _ _ = false |- _ => rewrite H; clear H end.
  reflexivity.
Qed.

Lemma match_delimited_plain d0 d stop open close s :
  is_special d0 = true -> plain s ->
  match_delimited (d0 :: d) stop open close s = None.
Proof.
  intros Hd Hs. unfold match_delimited.
  rewrite (strip_prefix_head_absent d0 d s (plain_not _ _ Hd Hs)). reflexivity.
Qed.

(** X4: A message without markup characters is shown as it is: when the content
    holds none of [&], [<], [>], the no-break space, the backtick, the
    asterisk and the newline, [formatMessageContent] returns it unchanged. *)
Theorem formatMessageContent_plain (content : string) :
  plain (lit content) -> formatMessageContent content = content.
Proof.
  intros Hp. unfold formatMessageContent, format_chars, replace_all.
  rewrite (escapeHtml_plain _ Hp).
  rewrite (replace_go_no_match (fun c => is_special c = false) match_code_block);
    [| intros s Hs; unfold match_code_block;
       change (lit "```") with ("`"%char :: lit "``");
       rewrite (strip_prefix_head_absent _ _ s (plain_not "`"%char s eq_refl Hs));
       reflexivity
     | exact Hp].
  rewrite (replace_go_no_match (fun c => is_special c = false) match_inline_code);
    [| intros s Hs; apply (match_delimited_plain "`" []); [reflexivity | exact Hs]
     | exact Hp].
  rewrite (replace_go_no_match (fun c => is_special c = false) match_bold);
    [| intros s Hs; apply (match_delimited_plain "*" ["*"%char]);
       [reflexivity | exact Hs]
     | exact Hp].
  rewrite (replace_go_no_match (fun c => is_special c = false) match_italic);
    [| intros s Hs; apply (match_delimited_plain "*" []); [reflexivity | exact Hs]
     | exact Hp].
  rewrite (replace_go_no_match (fun c => is_special c = false) match_newline);
    [| intros s Hs; unfold match_newline; destruct Hs as [|c r Hc Hr];
       [reflexivity|];
       destruct (Ascii.eqb_spec c newline) as [->|]; [discriminate Hc | reflexivity]
     | exact Hp].
  apply String.string_of_list_ascii_of_string.
Qed.

Lemma formatMessageContent_plain_witness :
  formatMessageContent "What is 2 + 2? (roughly)" = "What is 2 + 2? (roughly)".
Proof.
  apply (formatMessageContent_plain "What is 2 + 2? (roughly)").
  repeat constructor.
Defined.

Lemma replace_newline_none s skip :
  newline ∉ replace_go match_newline skip s.
Proof.
  revert skip. induction s as [|c r IH]; intros skip; simpl.
  - apply not_elem_of_nil.
  - destruct skip as [|k]; [|apply IH].
    destruct (Ascii.eqb_spec c newline) as [->|Hne]; simpl.
    + rewrite !not_elem_of_cons. repeat split; try discriminate. apply IH.
    + rewrite not_elem_of_cons. split; [congruence | apply IH].
Qed.

Lemma escape_char_no_markup c :
  Ascii.eqb "`" c = false /\ Ascii.eqb "*" c = false ->
  no_markup (escape_char c).
Proof.
  intros Hc. unfold escape_char, no_markup.
  repeat (destruct (Ascii.eqb c _);
          [repeat (constructor; [split; reflexivity|]); constructor|]).
  constructor; [exact Hc | constructor].
Qed.

Lemma escapeHtml_no_markup s : no_markup s -> no_markup (escapeHtml s).
Proof.
  unfold escapeHtml. induction 1 as [|c r Hc Hr IH]; simpl; [constructor|].
  apply Forall_app. split; [apply escape_char_no_markup, Hc | exact IH].
Qed.

Lemma no_markup_backtick s :
  no_markup s -> Forall (fun c => Ascii.eqb "`" c = false) s.
Proof.
  intros Hs. eapply Forall_impl; [exact Hs|]. intros c [Hb _]. exact Hb.
Qed.

Lemma no_markup_asterisk s :
  no_markup s -> Forall (fun c => Ascii.eqb "*" c = false) s.
Proof.
  intros Hs. eapply Forall_impl; [exact Hs|]. intros c [_ Ha]. exact Ha.
Qed.

Lemma replace_newline_app a b :
  replace_go match_newline 0 (a ++ b)
  = replace_go match_newline 0 a ++ replace_go match_newline 0 b.
Proof.
  induction a as [|c r IH]; simpl; [reflexivity|].
  destruct (Ascii.eqb c newline); simpl; rewrite IH; reflexivity.
Qed.

Lemma replace_newline_escape c :
  replace_go match_newline 0 (escape_char c) = break_char c.
Proof.
  unfold break_char, escape_char.
  destruct (Ascii.eqb_spec c "&") as [->|]; [reflexivity|].
  destruct (Ascii.eqb_spec c "<") as [->|]; [reflexivity|].
  destruct (Ascii.eqb_spec c ">") as [->|]; [reflexivity|].
  destruct (Ascii.eqb_spec c nbsp) as [->|]; [reflexivity|].
  simpl. destruct (Ascii.eqb c newline); reflexivity.
Qed.

Lemma replace_newline_escapeHtml s :
  replace_go match_newline 0 (escapeHtml s) = concat (map break_char s).
Proof.
  unfold escapeHtml. induction s as [|c r IH]; simpl; [reflexivity|].
  rewrite replace_newline_app, replace_newline_escape, IH. reflexivity.
Qed.

(** X5: The formatted bubble never holds a raw line break, whatever the
    content.  When the content has neither backtick nor asterisk, it is
    formatted character by character: every line feed has become a [br]
    tag and every other character is escaped, nothing else is changed.
    (Inside a fenced block a line feed can also be dropped, see
    [format_fenced_block].) *)
Theorem formatMessageContent_no_newline (content : string) :
  (newline ∉ lit (formatMessageContent content)) /\
  (no_markup (lit content) ->
   lit (formatMessageContent content) = concat (map break_char (lit content))).
Proof.
  unfold formatMessageContent, text, lit.
  rewrite String.list_ascii_of_string_of_list_ascii.
  split; [apply replace_newline_none|].
  intros Hn. apply escapeHtml_no_markup in Hn.
  unfold format_chars, replace_all.
  rewrite (replace_go_no_match _ match_code_block
             (fun s Hs => ltac:(unfold match_code_block;
                change (lit "```") with ("`"%char :: lit "``");
                rewrite (strip_prefix_head_absent _ _ s (no_markup_backtick s Hs));
                reflexivity)) _ Hn).
  rewrite (replace_go_no_match _ match_inline_code
             (fun s Hs => ltac:(unfold match_inline_code, match_delimited;
                change (lit "`") with ("`"%char :: []);
                rewrite (strip_prefix_head_absent _ _ s (no_markup_backtick s Hs));
                reflexivity)) _ Hn).
  rewrite (replace_go_no_match _ match_bold
             (fun s Hs => ltac:(unfold match_bold, match_delimited;
                change (lit "**") with ("*"%char :: lit "*");
                rewrite (strip_prefix_head_absent _ _ s (no_markup_asterisk s Hs));
                reflexivity)) _ Hn).
  rewrite (replace_go_no_match _ match_italic
             (fun s Hs => ltac:(unfold match_italic, match_delimited;
                change (lit "*") with ("*"%char :: []);
                rewrite (strip_prefix_head_absent _ _ s (no_markup_asterisk s Hs));
                reflexivity)) _ Hn).
  apply replace_newline_escapeHtml.
Qed.

Lemma formatMessageContent_no_newline_witness :
  lit (formatMessageContent (text (lit "a < b" ++ [newline] ++ lit "c")))
  = lit "a &lt; b<br>c".
Proof.
  destruct (formatMessageContent_no_newline
              (text (lit "a < b" ++ [newline] ++ lit "c"))) as [_ Hb].
  rewrite Hb; [reflexivity|].
  repeat (constructor; [split; reflexivity|]). constructor.
Defined.

(** The line feed behind the opening fence belongs to the fence, and the
    block is trimmed: these line feeds are dropped, not turned into tags. *)
Example format_fenced_block :
  formatMessageContent
    (text (lit "```" ++ [newline] ++ lit "code" ++ [newline] ++ lit "```"))
  = text (pre_open (lit "text") ++ lit "code" ++ pre_close).
Proof. reflexivity. Qed.

Lemma escape_char_inj c1 r1 c2 r2 :
  escape_char c1 ++ r1 = escape_char c2 ++ r2 -> c1 = c2 /\ r1 = r2.
Proof.
  unfold escape_char.
  destruct (Ascii.eqb_spec c1 "&") as [->|N1];
  [|destruct (Ascii.eqb_spec c1 "<") as [->|N2];
    [|destruct (Ascii.eqb_spec c1 ">") as [->|N3];
      [|destruct (Ascii.eqb_spec c1 nbsp) as [->|N4]]]];
  (destruct (Ascii.eqb_spec c2 "&") as [->|M1];
   [|destruct (Ascii.eqb_spec c2 "<") as [->|M2];
     [|destruct (Ascii.eqb_spec c2 ">") as [->|M3];
       [|destruct (Ascii.eqb_spec c2 nbsp) as [->|M4]]]]);
  simpl; intros Heq; try discriminate Heq;
  try (injection Heq as <-; split; [reflexivity | assumption]);
  try (injection Heq; intros; subst; split; [reflexivity | reflexivity]);
  try (injection Heq; intros; subst; congruence).
Qed.

Lemma escapeHtml_inj (s1 s2 : chars) :
  escapeHtml s1 = escapeHtml s2 -> s1 = s2.
Proof.
  unfold escapeHtml. revert s2.
  induction s1 as [|c1 r1 IH]; intros [|c2 r2]; simpl; intros Heq.
  - reflexivity.
  - exfalso. unfold escape_char in Heq.
    repeat (destruct (Ascii.eqb _ _) in Heq; [discriminate Heq|]).
    discriminate Heq.
  - exfalso. unfold escape_char in Heq.
    repeat (destruct (Ascii.eqb _ _) in Heq; [discriminate Heq|]).
    discriminate Heq.
  - apply escape_char_inj in Heq as [-> Hr]. f_equal. apply IH, Hr.
Qed.

(** X6: [escapeHtml] loses nothing: two different texts never escape to the
    same HTML. *)
Theorem escapeHtml_distinct (s1 s2 : chars) :
  s1 <> s2 -> escapeHtml s1 <> escapeHtml s2.
Proof. intros Hne Heq. apply Hne, escapeHtml_inj, Heq. Qed.

Lemma escapeHtml_distinct_witness :
  escapeHtml (lit "a<b") <> escapeHtml (lit "a&lt;b").
Proof.
  apply (escapeHtml_distinct (lit "a<b") (lit "a&lt;b")). discriminate.
Defined.

End FormatMore.

(** ** Further properties of the chat client *)

Module ChatMore.
Import Settings Chat ChatSpec Shell ShellSpec ChatFacts.

Section WithHost.
Context `{Host}.

Lemma addMessage_page_rest role content reasoning imageUrl now w :
  chatHistory (page (addMessage role content reasoning imageUrl now w))
  = chatHistory (page w) /\
  welcomeDisplay (page (addMessage role content reasoning imageUrl now w))
  = "none".
Proof.
  unfold addMessage, updateSessionStats, originalAddMessage.
  destruct (String.eqb role "bot" && _); split; reflexivity.
Qed.

Lemma fold_addMessage_rest (msgs : list SessionMessage) now w :
  let w' :=
    fold_left
      (fun w msg =>
         addMessage (m_role msg) (m_content msg) (m_reasoning msg) None now w)
      msgs w in
  chatHistory (page w') = chatHistory (page w) /\
  CONFIG w' = CONFIG w /\
  requests (effects w') = requests (effects w).
Proof.
  revert w. induction msgs as [|m msgs IH]; intros w; simpl.
  - repeat split; reflexivity.
  - destruct (IH (addMessage (m_role m) (m_content m) (m_reasoning m) None now w))
      as (Hh & Hc & Hq).
    rewrite Hh, Hc, Hq.
    rewrite addMessage_CONFIG, addMessage_requests.
    repeat split; try reflexivity. apply addMessage_page_rest.
Qed.

(** *** A successful send *)

Lemma settle_messages o now w :
  messages (STATE (sendMessage_settle o now w))
  = messages (STATE w) ++ [reply o now].
Proof.
  unfold reply. destruct (chat_result o) as [reason|data] eqn:Hr.
  - destruct (settle_failure o now w reason Hr) as (_ & Hm & _). exact Hm.
  - unfold sendMessage_settle. rewrite Hr. cbv zeta.
    unfold loadChatHistory, setItem, removeTypingIndicator.
    destruct (truthy (session_id data));
      cbn [STATE page effects CONFIG upd_STATE upd_page upd_effects
           upd_localStorage messages set_isProcessing set_sessionId];
      rewrite addMessage_STATE; reflexivity.
Qed.

(** X8: A send that succeeds removes the typing placeholder, appends exactly
    one bot message carrying the answer and both forms of the reasoning,
    shows no notice, asks for the session list, and adopts the session
    identifier of the answer when it is not empty, storing it; otherwise
    identifier and storage stay as they were. *)
Theorem successful_send o data now w :
  chat_result o = inr data ->
  let w' := sendMessage_settle o now w in
  messages (STATE w')
  = messages (STATE w)
      ++ [stored "bot" (final_answer data)
            (Some {| short := short_reasoning data;
                     full := full_reasoning data |}) None now] /\
  container (page w')
  = remove_typing (container (page w))
      ++ [MessageNode
            (createMessageElement "bot" (final_answer data)
               (Some {| short := short_reasoning data;
                        full := full_reasoning data |}) None now)] /\
  toasts (effects w') = toasts (effects w) /\
  requests (effects w')
  = requests (effects w)
      ++ [GetSessions (apiEndpoint (CONFIG w) +:+ "/sessions?limit=20")] /\
  isProcessing (STATE w') = false /\
  (forall id, session_id data = Some id -> id <> "" ->
     sessionId (STATE w') = id /\ localStorage w' !! "sessionId" = Some id) /\
  (session_id data = None \/ session_id data = Some "" ->
     sessionId (STATE w') = sessionId (STATE w) /\
     localStorage w' = localStorage w).
Proof.
  intros Hr w'. subst w'.
  split; [rewrite settle_messages; unfold reply; rewrite Hr; reflexivity|].
  split; [|split; [|split; [rewrite settle_requests, Hr; reflexivity|]]].
  - unfold sendMessage_settle. rewrite Hr. cbv zeta.
    unfold loadChatHistory, setItem, removeTypingIndicator.
    destruct (truthy (session_id data));
      cbn [STATE page effects CONFIG upd_STATE upd_page upd_effects
           upd_localStorage container set_sendDisabled];
      rewrite addMessage_container; reflexivity.
  - unfold sendMessage_settle. rewrite Hr. cbv zeta.
    unfold loadChatHistory, setItem, removeTypingIndicator.
    destruct (truthy (session_id data));
      cbn [STATE page effects CONFIG upd_STATE upd_page upd_effects
           upd_localStorage toasts add_request];
      rewrite addMessage_toasts; reflexivity.
  - split; [reflexivity|]. split.
    + intros id Hid Hne. unfold sendMessage_settle. rewrite Hr. cbv zeta.
      rewrite Hid. unfold truthy.
      destruct (String.eqb_spec id ""); [contradiction|].
      unfold loadChatHistory, setItem.
      cbn [negb STATE page effects CONFIG upd_STATE upd_page upd_effects
           upd_localStorage localStorage sessionId set_sessionId
           set_isProcessing default].
      split; [reflexivity | apply lookup_insert_eq].
    + intros Hnone. unfold sendMessage_settle. rewrite Hr. cbv zeta.
      assert (Hf : truthy (session_id data) = false)
        by (destruct Hnone as [-> | ->]; reflexivity).
      rewrite Hf. unfold loadChatHistory, removeTypingIndicator.
      cbn [STATE page effects CONFIG upd_STATE upd_page upd_effects
           localStorage sessionId set_isProcessing].
      rewrite addMessage_STATE, addMessage_localStorage.
      split; reflexivity.
Qed.

(** *** Whole exchanges *)

Lemma exchange_step w e :
  isProcessing (STATE w) = false ->
  messages (STATE (exchange w e)) = messages (STATE w) ++ exchange_log e /\
  isProcessing (STATE (exchange w e)) = false /\
  posts (exchange w e) = S (posts w).
Proof.
  intros Hidle. unfold exchange, exchange_log.
  destruct (sendMessage_accepts (ex_message e) (ex_imageData e)
              (ex_imageType e) (ex_sent e) w Hidle)
    as (_ & _ & Hm & _ & _ & Hq).
  rewrite settle_messages, Hm, <- app_assoc. split; [reflexivity|].
  split; [reflexivity|].
  rewrite settle_posts. unfold posts. rewrite Hq, sum_list_with_app.
  simpl. lia.
Qed.

(** X9: Exchanges that follow one another, each settled before the next is
    sent, fill the log in call order: every exchange contributes the
    user's message and then exactly one bot message (the answer or the
    error text), one chat request is issued per exchange, and the client
    ends idle. *)
Theorem exchanges_in_order (es : list Exchange) w :
  isProcessing (STATE w) = false ->
  let w' := fold_left exchange es w in
  messages (STATE w') = messages (STATE w) ++ concat (map exchange_log es) /\
  length (messages (STATE w')) = length (messages (STATE w)) + 2 * length es /\
  posts w' = posts w + length es /\
  isProcessing (STATE w') = false.
Proof.
  revert w. induction es as [|e es IH]; intros w Hidle; simpl.
  - rewrite app_nil_r. repeat split; try lia. exact Hidle.
  - destruct (exchange_step w e Hidle) as (Hm & Hp & Hq).
    destruct (IH (exchange w e) Hp) as (Hm' & Hl' & Hq' & Hp').
    rewrite Hl', Hm', Hq', Hm, Hq, <- !app_assoc, length_app.
    repeat split; try (simpl; lia). exact Hp'.
Qed.

(** *** The current session at start-up *)

(** X10: [loadCurrentSession] never shows a notice and never changes the session
    identifier or the storage; the messages of an ok response are added
    behind what the log and the transcript already hold, and every other
    outcome leaves the world as it is. *)
Theorem loadCurrentSession_appends o now w :
  let w' := loadCurrentSession_settle o now w in
  messages (STATE w')
  = messages (STATE w) ++ map (loaded now) (current_messages o) /\
  container (page w')
  = container (page w) ++ map (loaded_node now) (current_messages o) /\
  sessionId (STATE w') = sessionId (STATE w) /\
  localStorage w' = localStorage w /\
  toasts (effects w') = toasts (effects w) /\
  requests (effects w') = requests (effects w) /\
  (current_messages o = [] -> w' = w).
Proof.
  cbv zeta.
  assert (Hsame : current_messages o = [] -> loadCurrentSession_settle o now w = w).
  { destruct o as [msg|[] [msg|[[[|m ms]|]]]]; simpl; try reflexivity.
    discriminate. }
  destruct (current_messages o) as [|m ms] eqn:Hcur.
  - rewrite (Hsame eq_refl), !app_nil_r. repeat split; reflexivity.
  - assert (Ho : loadCurrentSession_settle o now w
                 = fold_left
                     (fun w msg =>
                        addMessage (m_role msg) (m_content msg)
                          (m_reasoning msg) None now w)
                     (m :: ms) (upd_page (set_welcomeDisplay "none") w)).
    { destruct o as [msg|[] [msg|[[[|m' ms']|]]]]; simpl in Hcur;
        try discriminate. injection Hcur as -> ->. reflexivity. }
    rewrite Ho.
    destruct (fold_addMessage (m :: ms) now
                (upd_page (set_welcomeDisplay "none") w)) as (Hs & Hc & Hl & Ht).
    destruct (fold_addMessage_rest (m :: ms) now
                (upd_page (set_welcomeDisplay "none") w)) as (_ & _ & Hq).
    cbv zeta in Hs, Hc, Hl, Ht, Hq. rewrite Hs, Hc, Hl, Ht, Hq.
    repeat split; try reflexivity. discriminate.
Qed.

(** *** From an uploaded image to the request *)

Lemma lit_append (a b : string) : lit (a +:+ b) = lit a ++ lit b.
Proof.
  unfold lit. induction a as [|c a IH]; [reflexivity|].
  change (c :: String.list_ascii_of_string (a +:+ b)
          = c :: (String.list_ascii_of_string a ++ String.list_ascii_of_string b)).
  rewrite IH. reflexivity.
Qed.

Lemma split_on_absent sep s : sep ∉ s -> split_on sep s = [s].
Proof.
  induction s as [|c r IH]; intros Hn; simpl; [reflexivity|].
  apply not_elem_of_cons in Hn as [Hne Hr].
  destruct (Ascii.eqb_spec c sep); [congruence|]. rewrite (IH Hr). reflexivity.
Qed.

Lemma split_on_first sep pre r :
  sep ∉ pre -> split_on sep (pre ++ sep :: r) = pre :: split_on sep r.
Proof.
  induction pre as [|c pre IH]; intros Hn; simpl.
  - rewrite Ascii.eqb_refl. reflexivity.
  - apply not_elem_of_cons in Hn as [Hne Hr].
    destruct (Ascii.eqb_spec c sep); [congruence|]. rewrite (IH Hr). reflexivity.
Qed.

Lemma sendMessage_clears_image message imageData imageType now w :
  isProcessing (STATE w) = false ->
  let w' := sendMessage message imageData imageType now w in
  currentImage (STATE w') = None /\ Chat.imageType (STATE w') = None /\
  previewDisplay (page w') = "none" /\ inputValue (page w') = "".
Proof.
  intros Hidle. unfold sendMessage. rewrite Hidle. repeat split; reflexivity.
Qed.

(** X7: An accepted image travels unchanged from the reader to the request:
    once the reader has delivered the data URL, a click on send with an
    empty text field sends the prompt [What is in this image?] together
    with the part of the URL after the comma and the file's type, shows the
    image in the user's message, and clears the pending image, the preview
    and the text field.  With an empty text field and no image the click
    does nothing. *)
Theorem image_only_send f (pre b64 : string) now w :
  acceptable f ->
  isProcessing (STATE w) = false ->
  text (trim (lit (inputValue (page w)))) = "" ->
  ","%char ∉ lit pre -> ","%char ∉ lit b64 -> b64 <> "" ->
  let w1 := reader_onload f (pre +:+ "," +:+ b64) w in
  let w2 := sendBtn_click now w1 in
  handleImageUpload (Some f) w = (w, Some f) /\
  currentImage (STATE w1) = Some b64 /\
  Chat.imageType (STATE w1) = Some (file_type f) /\
  requests (effects w2)
  = requests (effects w)
      ++ [PostChat (apiEndpoint (CONFIG w) +:+ "/chat") "What is in this image?"
            (sessionId (STATE w)) (model (CONFIG w)) (temperature (CONFIG w))
            (Some b64) (Some (file_type f))] /\
  messages (STATE w2)
  = messages (STATE w)
      ++ [stored "user" "What is in this image?" None
            (Some ("data:" +:+ file_type f +:+ ";base64," +:+ b64)) now] /\
  currentImage (STATE w2) = None /\
  Chat.imageType (STATE w2) = None /\
  previewDisplay (page w2) = "none" /\
  (currentImage (STATE w) = None -> sendBtn_click now w = w).
Proof.
  intros [Hty Hsize] Hidle Hblank Hpre Hb64 Hne w1 w2.
  assert (Himg : currentImage (STATE w1) = Some b64).
  { subst w1. unfold reader_onload. cbn [STATE upd_page upd_STATE currentImage set_image].
    rewrite lit_append.
    change (lit ("," +:+ b64)) with (","%char :: lit b64).
    rewrite (split_on_first _ _ _ Hpre), (split_on_absent _ _ Hb64).
    cbn. unfold text, lit. rewrite String.string_of_list_ascii_of_string.
    reflexivity. }
  assert (Hclick : w2 = sendMessage "What is in this image?" (Some b64)
                          (Some (file_type f)) now w1).
  { subst w2. unfold sendBtn_click. rewrite Himg.
    change (inputValue (page w1)) with (inputValue (page w)).
    rewrite Hblank. cbn [String.eqb negb orb].
    unfold truthy. destruct (String.eqb_spec b64 ""); [contradiction|].
    reflexivity. }
  assert (Hidle1 : isProcessing (STATE w1) = false) by exact Hidle.
  destruct (sendMessage_accepts "What is in this image?" (Some b64)
              (Some (file_type f)) now w1 Hidle1) as (_ & _ & Hm & _ & _ & Hq).
  destruct (sendMessage_clears_image "What is in this image?" (Some b64)
              (Some (file_type f)) now w1 Hidle1) as (Hc1 & Hc2 & Hc3 & _).
  rewrite <- Hclick in Hm, Hq, Hc1, Hc2, Hc3.
  split.
  { unfold handleImageUpload.
    apply includes_elem_of in Hty. rewrite Hty.
    destruct (N.ltb_spec (10 * 1024 * 1024) (file_size f)); [lia | reflexivity]. }
  split; [exact Himg|]. split; [reflexivity|].
  split; [exact Hq|]. split.
  { rewrite Hm. unfold image_url, truthy.
    destruct (String.eqb_spec b64 ""); [contradiction | reflexivity]. }
  split; [exact Hc1|]. split; [exact Hc2|]. split; [exact Hc3|].
  intros Hnone. unfold sendBtn_click. rewrite Hblank, Hnone. reflexivity.
Qed.

(** *** Saving the settings *)

Lemma localStorage_save form w :
  localStorage (saveSettingsToStorage form w)
  = <["apiEndpoint" := apiEndpointInput form]>
      (<["voiceOutput" := if voiceOutputToggle form then "true" else "false"]>
         (<["temperature" := numberToString (parseFloat (temperatureSlider form))]>
            (<["model" := modelSelect form]> (localStorage w)))).
Proof. reflexivity. Qed.

(** X3: Saved settings survive a reload: when model and endpoint are not empty,
    the endpoint is not the retired one, and the temperature is a number
    other than zero that the browser prints in a form [parseFloat] reads
    back, the configuration read from storage at the next start holds the
    saved model, endpoint, temperature and voice flag. *)
Theorem saved_settings_reload form w :
  modelSelect form <> "" ->
  apiEndpointInput form <> "" ->
  apiEndpointInput form <> "https://nao-ai.onrender.com/" ->
  num_truthy (parseFloat (temperatureSlider form)) = true ->
  parseFloat (numberToString (parseFloat (temperatureSlider form)))
  = parseFloat (temperatureSlider form) ->
  let w' := saveSettingsToStorage form w in
  let reloaded := (migrate (loadConfig (localStorage w'), localStorage w')).1 in
  model reloaded = modelSelect form /\
  apiEndpoint reloaded = apiEndpointInput form /\
  temperature reloaded = parseFloat (temperatureSlider form) /\
  voiceOutput reloaded = voiceOutputToggle form /\
  model (CONFIG w') = modelSelect form /\
  apiEndpoint (CONFIG w') = apiEndpointInput form /\
  temperature (CONFIG w') = parseFloat (temperatureSlider form) /\
  voiceOutput (CONFIG w') = voiceOutputToggle form.
Proof.
  intros Hm He Hold Ht Hrt w' reloaded.
  assert (Hcfg : loadConfig (localStorage w')
                 = {| apiEndpoint := apiEndpointInput form;
                      model := modelSelect form;
                      temperature := parseFloat (temperatureSlider form);
                      voiceOutput := voiceOutputToggle form;
                      theme := str_or (localStorage w !! "theme") default_theme |}).
  { subst w'. rewrite localStorage_save. unfold loadConfig, getItem.
    rewrite lookup_insert_eq.
    rewrite !(lookup_insert_ne _ "apiEndpoint") by discriminate.
    rewrite lookup_insert_eq.
    rewrite !(lookup_insert_ne _ "voiceOutput") by discriminate.
    rewrite lookup_insert_eq.
    rewrite !(lookup_insert_ne _ "temperature") by discriminate.
    rewrite lookup_insert_eq.
    rewrite !(lookup_insert_ne _ "model") by discriminate.
    rewrite !SettingsFacts.str_or_stored by assumption.
    unfold parseFloat_item, num_or, default. cbn [from_option]. unfold id.
    rewrite Hrt, Ht.
    destruct (voiceOutputToggle form); reflexivity. }
  subst reloaded. rewrite Hcfg. unfold migrate. cbn [apiEndpoint].
  destruct (String.eqb_spec (apiEndpointInput form)
              "https://nao-ai.onrender.com/"); [contradiction|].
  repeat split; reflexivity.
Qed.

(** *** The transcript mirrors the log *)

Lemma rendered_app l1 l2 : rendered (l1 ++ l2) = rendered l1 ++ rendered l2.
Proof.
  induction l1 as [|n l1 IH]; simpl; [reflexivity|].
  destruct n; simpl; rewrite IH; reflexivity.
Qed.

Lemma rendered_remove_typing l : rendered (remove_typing l) = rendered l.
Proof.
  induction l as [|n l IH]; simpl; [reflexivity|].
  destruct n; simpl; rewrite ?IH; reflexivity.
Qed.

Lemma rendered_loaded now (msgs : list SessionMessage) :
  rendered (map (loaded_node now) msgs) = map render (map (loaded now) msgs).
Proof. induction msgs as [|m msgs IH]; simpl; [|rewrite IH]; reflexivity. Qed.

Lemma settle_container o now w :
  container (page (sendMessage_settle o now w))
  = remove_typing (container (page w)) ++ [MessageNode (render (reply o now))].
Proof.
  unfold reply. destruct (chat_result o) as [reason|data] eqn:Hr.
  - destruct (settle_failure o now w reason Hr) as (_ & _ & Hc & _). exact Hc.
  - unfold sendMessage_settle. rewrite Hr. cbv zeta.
    unfold loadChatHistory, setItem, removeTypingIndicator.
    destruct (truthy (session_id data));
      cbn [STATE page effects CONFIG upd_STATE upd_page upd_effects
           upd_localStorage container set_sendDisabled];
      rewrite addMessage_container; reflexivity.
Qed.

Lemma mirrors_sendMessage message imageData imageType now w :
  mirrors w -> mirrors (sendMessage message imageData imageType now w).
Proof.
  unfold mirrors. intros Hm.
  destruct (isProcessing (STATE w)) eqn:Hp.
  - unfold sendMessage. rewrite Hp. exact Hm.
  - destruct (sendMessage_accepts message imageData imageType now w Hp)
      as (_ & _ & Hlog & Hc & _).
    rewrite Hlog, Hc, rendered_app, map_app, Hm. reflexivity.
Qed.

Lemma mirrors_loaded id o now w :
  mirrors w -> mirrors (loadSession_settle id o now w).
Proof.
  unfold mirrors. intros Hm.
  destruct o as [msg|ok [msg|[[msgs|]]]]; try exact Hm.
  unfold loadSession_settle, showToast, setItem.
  cbn [s_messages STATE page effects upd_STATE upd_page upd_effects
       upd_localStorage container messages set_chatHistory].
  match goal with
  | |- context [fold_left ?f msgs ?w0] =>
    destruct (fold_addMessage msgs now w0) as (Hs & Hc & _)
  end.
  cbv zeta in Hs, Hc. rewrite Hs, Hc. cbn. apply rendered_loaded.
Qed.

Lemma loadCurrentSession_log o now w :
  let w' := loadCurrentSession_settle o now w in
  messages (STATE w')
  = messages (STATE w) ++ map (loaded now) (current_messages o) /\
  container (page w')
  = container (page w) ++ map (loaded_node now) (current_messages o).
Proof.
  cbv zeta.
  destruct o as [msg|[] [msg|[[[|m ms]|]]]];
    try (simpl; rewrite !app_nil_r; split; reflexivity).
  unfold loadCurrentSession_settle, current_messages.
  cbn [s_messages default from_option id].
  destruct (fold_addMessage (m :: ms) now
              (upd_page (set_welcomeDisplay "none") w)) as (Hs & Hc & _).
  cbv zeta in Hs, Hc. rewrite Hs, Hc. split; reflexivity.
Qed.

Lemma mirrors_act w a : mirrors w -> mirrors (act w a).
Proof.
  intros Hm. destruct a as [m i t now|o now|now|id o now|o now|o|rnd|file|f r
                            |now|now|form]; simpl.
  - apply mirrors_sendMessage, Hm.
  - unfold mirrors in *.
    rewrite settle_messages, settle_container, rendered_app,
      rendered_remove_typing, map_app, Hm. reflexivity.
  - unfold sendBtn_click. destruct (_ || _); [|exact Hm].
    apply mirrors_sendMessage, Hm.
  - apply mirrors_loaded, Hm.
  - unfold mirrors in *.
    destruct (loadCurrentSession_log o now w) as [Hl Hc]. cbv zeta in Hl, Hc.
    rewrite Hl, Hc, rendered_app, map_app, Hm, rendered_loaded. reflexivity.
  - destruct o as [msg|ok [msg|[[[|s ss]|]]]]; exact Hm.
  - reflexivity.
  - unfold handleImageUpload. destruct file as [f|]; [|exact Hm].
    destruct (negb _); [exact Hm|]. destruct (_ <? _)%N; exact Hm.
  - exact Hm.
  - assert (Hk : STATE (exportTxt_click now w) = STATE w
                 /\ page (exportTxt_click now w) = page w).
    { unfold exportTxt_click, exportChat.
      destruct (messages (STATE w)); split; reflexivity. }
    destruct Hk as [Hs Hp]. unfold mirrors. rewrite Hs, Hp. exact Hm.
  - exact Hm.
  - exact Hm.
Qed.

(** X17: Whatever the user and the network do, in whatever order (sends while
    one is pending, late answers, sessions loaded or started meanwhile),
    the message elements of the transcript stay exactly the rendering of
    the log, message by message. *)
Theorem transcript_mirrors_log (actions : list Action) w :
  mirrors w -> mirrors (fold_left act actions w).
Proof.
  revert w. induction actions as [|a actions IH]; intros w Hm; simpl.
  - exact Hm.
  - apply IH, mirrors_act, Hm.
Qed.

(** *** Sends never overlap *)

(** X1: Along every run, at every moment, at most one chat request is
    outstanding, and one is outstanding exactly while the processing flag is
    set. *)
Theorem at_most_one_in_flight (events : list Event) r k :
  single_flight r ->
  let r' := fold_left step (take k events) r in
  posts (world r') - settled r' <= 1 /\
  (isProcessing (STATE (world r')) = true
   <-> posts (world r') - settled r' = 1).
Proof.
  intros Hinv r'.
  destruct (run_single_flight (take k events) r Hinv) as [Hsf Hle].
  fold r' in Hsf, Hle. split; [exact Hle|].
  unfold single_flight in Hsf.
  destruct (isProcessing (STATE (world r'))); split; intros Hx;
    try reflexivity; try discriminate; lia.
Qed.

(** *** Loading a session replaces the old one *)

Lemma fold_addMessage_welcome (msgs : list SessionMessage) now w :
  welcomeDisplay (page w) = "none" ->
  welcomeDisplay
    (page (fold_left
             (fun w msg =>
                addMessage (m_role msg) (m_content msg) (m_reasoning msg) None
                  now w) msgs w)) = "none".
Proof.
  revert w. induction msgs as [|m msgs IH]; intros w Hw; simpl; [exact Hw|].
  apply IH, addMessage_page_rest.
Qed.

(** X2: When the answer to [loadSession] carries messages (even none), the
    identifier, the stored identifier, the log and the transcript are
    replaced together: the log and the transcript hold the fetched
    messages and nothing of the previous session, the welcome panel is
    hidden, and the processing flag of a pending send is left alone. *)
Theorem loadSession_replaces_session id ok msgs now w :
  let w' := loadSession_settle id
              (Response ok (Parsed {| s_messages := Some msgs |})) now w in
  sessionId (STATE w') = id /\
  localStorage w' !! "sessionId" = Some id /\
  messages (STATE w') = map (loaded now) msgs /\
  container (page w') = map (loaded_node now) msgs /\
  mirrors w' /\
  welcomeDisplay (page w') = "none" /\
  isProcessing (STATE w') = isProcessing (STATE w) /\
  toasts (effects w')
  = toasts (effects w)
      ++ [{| toast_message := "Chat loaded!"; toast_type := "success" |}].
Proof.
  intros w'.
  destruct (loadSession_success_replaces id ok msgs now w)
    as (Hid & Hm & Hc & Hl & Ht).
  fold w' in Hid, Hm, Hc, Hl, Ht.
  split; [exact Hid|]. split; [exact Hl|]. split; [exact Hm|].
  split; [exact Hc|]. split.
  { unfold mirrors. rewrite Hm, Hc. apply rendered_loaded. }
  split; [|split; [|exact Ht]].
  - subst w'. unfold loadSession_settle, showToast, setItem.
    cbn [s_messages page upd_page upd_effects welcomeDisplay set_chatHistory].
    apply fold_addMessage_welcome. reflexivity.
  - subst w'. unfold loadSession_settle, showToast, setItem.
    cbn [s_messages STATE upd_page upd_effects].
    match goal with
    | |- context [fold_left ?f msgs ?w0] =>
      destruct (fold_addMessage msgs now w0) as (Hs & _)
    end.
    cbv zeta in Hs. rewrite Hs. reflexivity.
Qed.

(** *** The session identifier across reloads *)

Lemma str_or_nonempty v d : d <> "" -> str_or v d <> "".
Proof.
  intros Hd. unfold str_or. destruct v as [s|]; [|exact Hd].
  destruct (String.eqb_spec s ""); assumption.
Qed.

Lemma generateSessionId_nonempty rnd : generateSessionId rnd <> "".
Proof. discriminate. Qed.

Lemma migrate_sessionId c (ls : gmap string string) :
  (migrate (c, ls)).2 !! "sessionId" = ls !! "sessionId".
Proof.
  unfold migrate. destruct (String.eqb _ _); [|reflexivity].
  apply lookup_insert_ne. discriminate.
Qed.

Lemma init_sessionId ls rnd pg :
  sessionId (STATE (init ls rnd pg))
  = str_or (ls !! "sessionId") (generateSessionId rnd) /\
  localStorage (init ls rnd pg) !! "sessionId"
  = Some (sessionId (STATE (init ls rnd pg))).
Proof.
  unfold init.
  pose proof (migrate_sessionId (loadConfig ls) ls) as Hmig.
  destruct (migrate (loadConfig ls, ls)) as [cfg ls'].
  cbn [snd] in Hmig. cbv zeta. unfold updateSessionStats, initState, getItem.
  cbn [STATE localStorage upd_page sessionId]. rewrite Hmig.
  split; [reflexivity|].
  unfold Settings.setItem. rewrite lookup_insert_ne by discriminate.
  apply lookup_insert_eq.
Qed.

(** X18: The session identifier persists: the script stores the identifier it
    starts with (the stored one when there is a non-empty one, a generated
    one otherwise, which is never empty), and a reload on that storage
    starts with the same identifier, whatever the random draw. *)
Theorem sessionId_survives_reload ls rnd pg rnd' pg' :
  let w := init ls rnd pg in
  let w' := init (localStorage w) rnd' pg' in
  sessionId (STATE w') = sessionId (STATE w) /\
  localStorage w !! "sessionId" = Some (sessionId (STATE w)) /\
  sessionId (STATE w) <> "" /\
  (ls !! "sessionId" = None -> sessionId (STATE w) = generateSessionId rnd) /\
  (forall s, ls !! "sessionId" = Some s -> s <> "" -> sessionId (STATE w) = s).
Proof.
  intros w w'.
  destruct (init_sessionId ls rnd pg) as [Hid Hst].
  destruct (init_sessionId (localStorage w) rnd' pg') as [Hid' _].
  fold w in Hid, Hst. fold w' in Hid'.
  assert (Hne : sessionId (STATE w) <> "").
  { rewrite Hid. apply str_or_nonempty, generateSessionId_nonempty. }
  split.
  { rewrite Hid', Hst. apply SettingsFacts.str_or_stored, Hne. }
  split; [exact Hst|]. split; [exact Hne|]. split.
  - intros Hnone. rewrite Hid, Hnone. reflexivity.
  - intros s Hs Hsne. rewrite Hid, Hs. apply SettingsFacts.str_or_stored, Hsne.
Qed.

(** *** The list of sessions *)

Lemma loadChatHistory_settle_rest o w :
  STATE (loadChatHistory_settle o w) = STATE w /\
  container (page (loadChatHistory_settle o w)) = container (page w) /\
  localStorage (loadChatHistory_settle o w) = localStorage w /\
  effects (loadChatHistory_settle o w) = effects w /\
  CONFIG (loadChatHistory_settle o w) = CONFIG w.
Proof.
  destruct o as [msg|ok [msg|[[[|s ss]|]]]]; simpl; repeat split; reflexivity.
Qed.

(** X11: The sidebar lists the sessions of the last non-empty answer, in its
    order and none of them marked; a failed or empty answer leaves it as it
    is.  Loading a session marks exactly its entries, and the next
    non-empty refresh (as after every successful send) removes the mark
    again. *)
Theorem history_marks ok ok' ok'' (ss ss' : list SessionInfo) id msgs now w :
  ss <> [] -> ss' <> [] ->
  let listed := loadChatHistory_settle
                  (Response ok (Parsed {| sessions := Some ss |})) w in
  let opened := loadSession_settle id
                  (Response ok' (Parsed {| s_messages := Some msgs |})) now
                  listed in
  let relisted := loadChatHistory_settle
                    (Response ok'' (Parsed {| sessions := Some ss' |})) opened in
  map item_sessionId (chatHistory (page listed)) = map si_id ss /\
  Forall (fun i => item_active i = false) (chatHistory (page listed)) /\
  map item_sessionId (chatHistory (page opened)) = map si_id ss /\
  Forall (fun i => item_active i = true <-> item_sessionId i = id)
         (chatHistory (page opened)) /\
  Forall (fun i => item_active i = false) (chatHistory (page relisted)) /\
  (forall msg, loadChatHistory_settle (Rejected msg) w = w) /\
  (forall b msg, loadChatHistory_settle (Response b (Unparseable msg)) w = w) /\
  (forall b, loadChatHistory_settle
               (Response b (Parsed {| sessions := Some [] |})) w = w) /\
  (forall b, loadChatHistory_settle
               (Response b (Parsed {| sessions := None |})) w = w).
Proof.
  intros Hss Hss' listed opened relisted.
  assert (Hlisted : chatHistory (page listed) = map history_item ss).
  { subst listed. destruct ss; [congruence | reflexivity]. }
  assert (Hopened : chatHistory (page opened)
                    = map (toggle_active id) (chatHistory (page listed))).
  { subst opened. unfold loadSession_settle, showToast, setItem.
    cbn [s_messages page effects upd_page upd_effects chatHistory
         set_chatHistory].
    match goal with
    | |- context [fold_left ?f msgs ?w0] =>
      destruct (fold_addMessage_rest msgs now w0) as (Hh & _ & _)
    end.
    cbv zeta in Hh. rewrite Hh. reflexivity. }
  assert (Hrelisted : chatHistory (page relisted) = map history_item ss').
  { subst relisted. destruct ss'; [congruence | reflexivity]. }
  rewrite Hopened, Hlisted, Hrelisted.
  repeat split; try reflexivity.
  - rewrite map_map. reflexivity.
  - apply Forall_map, Forall_true. reflexivity.
  - rewrite !map_map. reflexivity.
  - rewrite map_map. apply Forall_map, Forall_true. intros s. simpl.
    apply String.eqb_eq.
  - apply Forall_map, Forall_true. reflexivity.
Qed.

End WithHost.

(** *** Deleting a session *)

(** X12: A deletion the user does not confirm does nothing.  A rejected request
    only shows an error notice.  After any response, whatever its status
    and whatever became of the refreshed list, the notice [Chat deleted!]
    appears; when the deleted session is the current one a new chat is
    started, and otherwise session, log and transcript stay as they are. *)
Theorem deleteSession_rotates_only_current id o rnd sh :
  let sh' := deleteSession_listed id o rnd sh in
  deleteSession id false sh = sh /\
  (forall msg,
     let failed := deleteSession_fetched (Rejected msg) sh in
     STATE (inner failed) = STATE (inner sh) /\
     page (inner failed) = page (inner sh) /\
     requests (effects (inner failed)) = requests (effects (inner sh)) /\
     toasts (effects (inner failed))
     = toasts (effects (inner sh)) ++ [error_toast "Error deleting chat"]) /\
  toasts (effects (inner sh'))
  = toasts (effects (inner sh))
      ++ (if String.eqb id (sessionId (STATE (inner sh)))
          then [{| toast_message := "Started new chat";
                   toast_type := "success" |}]
          else [])
      ++ [{| toast_message := "Chat deleted!"; toast_type := "success" |}] /\
  (id = sessionId (STATE (inner sh)) ->
   sessionId (STATE (inner sh')) = generateSessionId rnd /\
   localStorage (inner sh') !! "sessionId" = Some (generateSessionId rnd) /\
   messages (STATE (inner sh')) = [] /\
   container (page (inner sh')) = [WelcomeNode]) /\
  (id <> sessionId (STATE (inner sh)) ->
   STATE (inner sh') = STATE (inner sh) /\
   container (page (inner sh')) = container (page (inner sh)) /\
   localStorage (inner sh') = localStorage (inner sh)).
Proof.
  cbv zeta. split; [reflexivity|]. split; [repeat split; reflexivity|].
  destruct (loadChatHistory_settle_rest o (inner sh)) as (Hs & Hc & Hl & He & _).
  unfold deleteSession_listed, upd_inner. cbn [inner]. rewrite Hs.
  destruct (String.eqb_spec id (sessionId (STATE (inner sh)))) as [Heq|Hne].
  - split; [|split; [|intros Hc'; contradiction]].
    + unfold startNewChat, showToast, setItem.
      cbn [effects upd_effects upd_page upd_STATE upd_localStorage toasts
           add_toast]. rewrite He, <- app_assoc. reflexivity.
    + intros _. repeat split; try reflexivity. apply lookup_insert_eq.
  - split; [|split; [intros Hc'; contradiction|]].
    + unfold showToast. cbn [effects upd_effects toasts add_toast].
      rewrite He. reflexivity.
    + intros _. unfold showToast.
      cbn [STATE page localStorage upd_effects]. rewrite Hs, Hc, Hl.
      repeat split; reflexivity.
Qed.

(** *** Theme *)

Lemma setTheme_agrees t sh :
  let sh' := setTheme t sh in
  theme (CONFIG (inner sh')) = t /\
  dataTheme sh' = t /\
  localStorage (inner sh') !! "theme" = Some t.
Proof. cbv zeta. repeat split. apply lookup_insert_eq. Qed.

(** X13: Every change of theme leaves [CONFIG], the attribute of the document
    and the stored theme in agreement, marks exactly the options of that
    theme, and a stored theme that is not empty is the one read back at the
    next load.  The theme button goes from dark to light and from every
    other theme to dark, so two clicks return a dark or light theme to
    itself. *)
Theorem theme_toggle sh t :
  let sh' := setTheme t sh in
  (theme (CONFIG (inner sh')) = t /\ dataTheme sh' = t /\
   localStorage (inner sh') !! "theme" = Some t) /\
  Forall (fun o => o.2 = true <-> o.1 = t) (themeOptions sh') /\
  (t <> "" -> theme (loadConfig (localStorage (inner sh'))) = t) /\
  (theme (CONFIG (inner sh)) = "dark" ->
   theme (CONFIG (inner (themeToggle_click sh))) = "light") /\
  (theme (CONFIG (inner sh)) <> "dark" ->
   theme (CONFIG (inner (themeToggle_click sh))) = "dark") /\
  (theme (CONFIG (inner sh)) = "dark" \/ theme (CONFIG (inner sh)) = "light" ->
   theme (CONFIG (inner (themeToggle_click (themeToggle_click sh))))
   = theme (CONFIG (inner sh))).
Proof.
  cbv zeta. split; [apply setTheme_agrees|]. split; [|split; [|split; [|split]]].
  - unfold setTheme. cbn [themeOptions]. apply Forall_map, Forall_true.
    intros o. simpl. apply String.eqb_eq.
  - intros Hne. unfold loadConfig, getItem. cbn [theme].
    rewrite (proj2 (proj2 (setTheme_agrees t sh))).
    apply SettingsFacts.str_or_stored, Hne.
  - intros Hd. unfold themeToggle_click. rewrite Hd. reflexivity.
  - intros Hd. unfold themeToggle_click.
    destruct (String.eqb_spec (theme (CONFIG (inner sh))) "dark");
      [contradiction | reflexivity].
  - intros [Hd|Hl]; unfold themeToggle_click at 1;
      unfold themeToggle_click; rewrite ?Hd, ?Hl; cbn; rewrite ?Hd, ?Hl;
      reflexivity.
Qed.

(** *** System reset *)

Lemma reset_storage_lookup (id k : string) :
  k <> "sessionId" -> k <> "theme" ->
  ({[ "sessionId" := id; "theme" := "dark" ]} : gmap string string) !! k = None.
Proof.
  intros H1 H2. rewrite lookup_insert_ne by congruence.
  apply lookup_singleton_ne. congruence.
Qed.

Lemma reset_storage_config (id : string) :
  loadConfig {[ "sessionId" := id; "theme" := "dark" ]} = default_config.
Proof.
  unfold loadConfig, getItem, parseFloat_item.
  rewrite !(reset_storage_lookup id) by discriminate.
  rewrite lookup_insert_ne by discriminate. rewrite lookup_singleton_eq.
  reflexivity.
Qed.

Lemma reset_storage_init `{Host} (id rnd : string) pg :
  let w := init {[ "sessionId" := "session_" +:+ id; "theme" := "dark" ]} rnd pg in
  CONFIG w = default_config /\ sessionId (STATE w) = "session_" +:+ id.
Proof.
  cbv zeta. unfold init. rewrite reset_storage_config.
  change (migrate (default_config, ?ls)) with (default_config, ls).
  cbv zeta. unfold updateSessionStats, initState, getItem.
  cbn [CONFIG STATE upd_page sessionId].
  rewrite lookup_insert_eq. split; reflexivity.
Qed.

Lemma localStorage_setItem k v w :
  localStorage (setItem k v w) = <[k := v]> (localStorage w).
Proof. reflexivity. Qed.

Lemma localStorage_startNewChat rnd w :
  localStorage (startNewChat rnd w)
  = <["sessionId" := generateSessionId rnd]> (localStorage w).
Proof. reflexivity. Qed.

Lemma localStorage_setTheme t sh :
  localStorage (inner (setTheme t sh)) = <["theme" := t]> (localStorage (inner sh)).
Proof. reflexivity. Qed.

Lemma reset_storage_steps rnd1 rnd2 sh :
  localStorage (inner (resetSystem_click true rnd1 rnd2 sh))
  = localStorage
      (inner
         (setTheme "dark"
            (upd_inner
               (setItem "sessionId" (generateSessionId rnd2))
               (upd_inner (startNewChat rnd1)
                  (upd_inner (upd_localStorage (fun _ => ∅)) sh))))).
Proof. reflexivity. Qed.

Lemma reset_storage rnd1 rnd2 sh :
  localStorage (inner (resetSystem_click true rnd1 rnd2 sh))
  = {[ "sessionId" := generateSessionId rnd2; "theme" := "dark" ]}.
Proof.
  rewrite reset_storage_steps, localStorage_setTheme.
  change (inner (upd_inner ?f ?x)) with (f (inner x)).
  rewrite localStorage_setItem.
  change (inner (upd_inner ?f ?x)) with (f (inner x)).
  rewrite localStorage_startNewChat.
  change (localStorage (inner (upd_inner (upd_localStorage (fun _ => ∅)) sh)))
    with (∅ : gmap string string).
  rewrite insert_insert_eq, insert_insert_ne by discriminate.
  rewrite insert_empty. reflexivity.
Qed.

Lemma reset_memory rnd1 rnd2 sh :
  let sh' := resetSystem_click true rnd1 rnd2 sh in
  sessionId (STATE (inner sh')) = generateSessionId rnd2 /\
  messages (STATE (inner sh')) = [] /\
  container (page (inner sh')) = [WelcomeNode] /\
  reloadScheduled sh' = true /\
  model (CONFIG (inner sh')) = "google/gemini-2.0-flash-exp:free".
Proof. cbv zeta. repeat split; reflexivity. Qed.

(** X14: After a confirmed reset the storage holds the second new session
    identifier and the dark theme and nothing else, the log is empty and a
    reload is scheduled; so the reload starts from the built-in defaults
    and keeps that identifier, whatever was stored before.  (The model
    identifier put into [CONFIG] by the reset itself is another one than
    the default the reload reads.) *)
Theorem resetSystem_reloads_defaults `{Host} rnd1 rnd2 rnd3 pg sh :
  let sh' := resetSystem_click true rnd1 rnd2 sh in
  let reloaded := init (localStorage (inner sh')) rnd3 pg in
  localStorage (inner sh')
  = {[ "sessionId" := generateSessionId rnd2; "theme" := "dark" ]} /\
  sessionId (STATE (inner sh')) = generateSessionId rnd2 /\
  messages (STATE (inner sh')) = [] /\
  container (page (inner sh')) = [WelcomeNode] /\
  reloadScheduled sh' = true /\
  model (CONFIG (inner sh')) = "google/gemini-2.0-flash-exp:free" /\
  CONFIG reloaded = default_config /\
  sessionId (STATE reloaded) = generateSessionId rnd2 /\
  resetSystem_click false rnd1 rnd2 sh = sh.
Proof.
  intros sh' reloaded.
  split; [apply reset_storage|].
  destruct (reset_memory rnd1 rnd2 sh) as (H1 & H2 & H3 & H4 & H5).
  split; [exact H1|]. split; [exact H2|]. split; [exact H3|].
  split; [exact H4|]. split; [exact H5|].
  subst reloaded sh'. rewrite reset_storage.
  destruct (reset_storage_init (String.substring 2 (15 - 2) rnd2) rnd3 pg)
    as [Hc Hs].
  split; [exact Hc|]. split; [exact Hs | reflexivity].
Qed.

(** *** Uptime *)

(** X15: The uptime display counts whole seconds below a minute, whole minutes
    (1 to 59) below an hour and whole hours from then on, always rounding
    down. *)
Theorem uptime_text_bounds (start now : Z) :
  (start <= now)%Z ->
  let elapsed := ((now - start) / 1000)%Z in
  exists (n unit : Z) (suffix : string),
    uptime_text start now = pretty n +:+ suffix /\
    (unit * n <= elapsed < unit * (n + 1))%Z /\
    ((suffix = "s" /\ unit = 1 /\ 0 <= n < 60)%Z \/
     (suffix = "m" /\ unit = 60 /\ 1 <= n < 60)%Z \/
     (suffix = "h" /\ unit = 3600 /\ 1 <= n)%Z).
Proof.
  intros Hle elapsed. unfold uptime_text. fold elapsed.
  assert (He : (0 <= elapsed)%Z) by (apply Z.div_pos; lia).
  destruct (Z.ltb_spec elapsed 60) as [H1|H1].
  - exists elapsed, 1%Z, "s". split; [reflexivity|]. split; [lia|].
    left. repeat split; lia.
  - destruct (Z.ltb_spec elapsed 3600) as [H2|H2].
    + exists (elapsed / 60)%Z, 60%Z, "m". split; [reflexivity|].
      pose proof (Z.div_mod elapsed 60 ltac:(lia)).
      pose proof (Z.mod_pos_bound elapsed 60 ltac:(lia)).
      split; [lia|]. right. left. repeat split; lia.
    + exists (elapsed / 3600)%Z, 3600%Z, "h". split; [reflexivity|].
      pose proof (Z.div_mod elapsed 3600 ltac:(lia)).
      pose proof (Z.mod_pos_bound elapsed 3600 ltac:(lia)).
      split; [lia|]. right. right. repeat split; lia.
Qed.

Lemma uptime_text_bounds_witness :
  exists (n unit : Z) (suffix : string),
    uptime_text 1000 125500 = pretty n +:+ suffix /\
    (unit * n <= 124 < unit * (n + 1))%Z /\
    ((suffix = "s" /\ unit = 1 /\ 0 <= n < 60)%Z \/
     (suffix = "m" /\ unit = 60 /\ 1 <= n < 60)%Z \/
     (suffix = "h" /\ unit = 3600 /\ 1 <= n)%Z).
Proof.
  apply (uptime_text_bounds 1000 125500). lia.
Defined.

Example uptime_samples :
  map (uptime_text 0) [0; 59999; 60000; 3599999; 3600000; 90000000]%Z
  = ["0s"; "59s"; "1m"; "59m"; "1h"; "25h"].
Proof. reflexivity. Qed.


Lemma at_most_one_in_flight_witness :
  let r' := fold_left (step (H := plain_host))
              (take 3 [Send "one" None None 0; Send "two" None None 1;
                       Settle (Rejected "Failed to fetch") 2;
                       Send "three" None None 3])
              {| world := fresh; settled := 0 |} in
  posts (world r') - settled r' <= 1.
Proof.
  intros r'.
  assert (Hstart : single_flight {| world := fresh; settled := 0 |})
    by reflexivity.
  destruct (at_most_one_in_flight (H := plain_host)
              [Send "one" None None 0; Send "two" None None 1;
               Settle (Rejected "Failed to fetch") 2; Send "three" None None 3]
              {| world := fresh; settled := 0 |} 3 Hstart) as [Hle _].
  exact Hle.
Defined.

Lemma transcript_mirrors_log_witness :
  mirrors (H := plain_host)
    (fold_left (act (H := plain_host))
       [ASend "hello" None None 0; AClick 1; ANewChat "0.k3f9x2m1q8zt7";
        ASettle (Rejected "Failed to fetch") 2;
        ALoaded "s1"
          (Response true
             (Parsed {| s_messages :=
                          Some [{| m_role := "user"; m_content := "hi";
                                   m_reasoning := None |}] |})) 3]
       fresh).
Proof.
  apply (transcript_mirrors_log (H := plain_host)
           [ASend "hello" None None 0; AClick 1; ANewChat "0.k3f9x2m1q8zt7";
            ASettle (Rejected "Failed to fetch") 2;
            ALoaded "s1"
              (Response true
                 (Parsed {| s_messages :=
                              Some [{| m_role := "user"; m_content := "hi";
                                       m_reasoning := None |}] |})) 3]
           fresh).
  reflexivity.
Defined.

Lemma successful_send_witness :
  let data := {| detail := None; final_answer := "4"; short_reasoning := "sum";
                 full_reasoning := "2 + 2 = 4"; session_id := Some "srv_7" |} in
  let w := sendMessage (H := plain_host) "2 + 2?" None None 0 fresh in
  let w' := sendMessage_settle (H := plain_host) (Response true (Parsed data)) 1 w in
  sessionId (STATE w') = "srv_7" /\ localStorage w' !! "sessionId" = Some "srv_7".
Proof.
  intros data w w'.
  destruct (successful_send (H := plain_host) (Response true (Parsed data)) data 1
              w eq_refl) as (_ & _ & _ & _ & _ & Hid & _).
  apply (Hid "srv_7"); [reflexivity | discriminate].
Defined.

Lemma exchanges_in_order_witness :
  let es :=
    [{| ex_message := "hello"; ex_imageData := None; ex_imageType := None;
        ex_sent := 0; ex_outcome := Rejected "Failed to fetch";
        ex_settled := 1 |};
     {| ex_message := "again"; ex_imageData := None; ex_imageType := None;
        ex_sent := 2;
        ex_outcome :=
          Response true
            (Parsed {| detail := None; final_answer := "hi";
                       short_reasoning := ""; full_reasoning := "";
                       session_id := None |});
        ex_settled := 3 |}] in
  length (messages (STATE (fold_left (exchange (H := plain_host)) es fresh)))
  = length (messages (STATE fresh)) + 2 * 2.
Proof.
  intros es.
  assert (Hidle : isProcessing (STATE fresh) = false) by reflexivity.
  destruct (exchanges_in_order (H := plain_host) es fresh Hidle)
    as (_ & Hl & _).
  exact Hl.
Defined.

Lemma history_marks_witness :
  let ss := [{| si_id := "s1"; si_title := Some "First"; si_message_count := Some 2 |};
             {| si_id := "s2"; si_title := None; si_message_count := None |}] in
  let listed := loadChatHistory_settle
                  (Response true (Parsed {| sessions := Some ss |})) fresh in
  map item_sessionId (chatHistory (page listed)) = ["s1"; "s2"].
Proof.
  intros ss listed.
  assert (Hne : ss <> []) by discriminate.
  destruct (history_marks (H := plain_host) true true true ss ss "s2" [] 0 fresh
              Hne Hne) as (Hids & _).
  exact Hids.
Defined.

Lemma image_only_send_witness :
  let f := {| file_type := "image/png"; file_size := 2048 |} in
  let w1 := reader_onload f ("data:image/png;base64" +:+ "," +:+ "iVBORw0KGgo=")
              fresh in
  currentImage (STATE (sendBtn_click (H := plain_host) 5 w1)) = None.
Proof.
  intros f w1.
  assert (Hacc : acceptable f).
  { split; [|simpl; lia]. apply list_elem_of_In. simpl. auto. }
  assert (Hidle : isProcessing (STATE fresh) = false) by reflexivity.
  assert (Hblank : text (trim (lit (inputValue (page fresh)))) = "")
    by reflexivity.
  assert (Hpre : ","%char ∉ lit "data:image/png;base64").
  { intros Hin. apply list_elem_of_In in Hin. simpl in Hin.
    repeat (destruct Hin as [Hin|Hin]; [discriminate Hin|]). exact Hin. }
  assert (Hb : ","%char ∉ lit "iVBORw0KGgo=").
  { intros Hin. apply list_elem_of_In in Hin. simpl in Hin.
    repeat (destruct Hin as [Hin|Hin]; [discriminate Hin|]). exact Hin. }
  assert (Hne : "iVBORw0KGgo=" <> "") by discriminate.
  destruct (image_only_send (H := plain_host) f "data:image/png;base64"
              "iVBORw0KGgo=" 5 fresh Hacc Hidle Hblank Hpre Hb Hne)
    as (_ & _ & _ & _ & _ & Hc & _).
  exact Hc.
Defined.

Lemma saved_settings_reload_witness :
  let form := {| modelSelect := "deepseek/deepseek-chat";
                 temperatureSlider := "1.5"; voiceOutputToggle := true;
                 apiEndpointInput := "http://localhost:8000" |} in
  let w' := saveSettingsToStorage (H := plain_host) form fresh in
  temperature (migrate (loadConfig (localStorage w'), localStorage w')).1
  = Dec false 15 (-1).
Proof.
  intros form w'.
  assert (H1 : modelSelect form <> "") by discriminate.
  assert (H2 : apiEndpointInput form <> "") by discriminate.
  assert (H3 : apiEndpointInput form <> "https://nao-ai.onrender.com/")
    by discriminate.
  assert (H4 : num_truthy (parseFloat (temperatureSlider form)) = true)
    by reflexivity.
  assert (H5 : parseFloat (@numberToString plain_host
                             (parseFloat (temperatureSlider form)))
               = parseFloat (temperatureSlider form)) by reflexivity.
  destruct (saved_settings_reload (H := plain_host) form fresh H1 H2 H3 H4 H5)
    as (_ & _ & Ht & _).
  exact Ht.
Defined.

End ChatMore.

(** ** Applying a backup *)

Module RestoreMore.
Import Restore RestoreSpec.





End RestoreMore.
